(** * Hardware-in-the-loop sensor simulator ([src/main.py])

    A shallow embedding of the simulator's control handlers, its background
    worker and its sample generator, followed by the properties of the
    design document that can be stated over them.

    Conventions of the embedding.
    - A Python [float] is an exact rational ([Q]): the arithmetic of
      [generate_sensor_data] is the arithmetic over the rationals, so binary
      rounding of single operations, overflow, infinities and NaN are outside
      the model, and no property below is about the size of a generated
      value.  The decimal rounding done by the builtin [round] is modelled
      (function [py_round]).
    - [random.random()] and [time.time()] are inputs of the functions that
      call them.
    - The module-level globals are the fields of the record [World]; the
      [SimulationConfig] objects live in a store and are named by reference,
      because the program passes them around without copying.
    - What the sockets, the client and the scheduler do is an input of each
      worker step (record [WorkerEnv]). *)

From Stdlib Require Import ZArith QArith Qround Qabs String List Lia Lqa.
From stdpp Require Import base option list gmap strings.

Local Open Scope Q_scope.

(** ** Numbers *)

Module Num.

(** Nearest integer, ties to the even one. *)
Definition round_half_even (x : Q) : Z :=
  let f := Qfloor x in
  match Qcompare (x - inject_Z f) (1 # 2) with
  | Lt => f
  | Gt => (f + 1)%Z
  | Eq => if Z.even f then f else (f + 1)%Z
  end.

Definition pow10 (ndigits : nat) : Q := inject_Z (10 ^ Z.of_nat ndigits).

(** The builtin [round(x, ndigits)] for a float [x] and [ndigits >= 0]:
    the multiple of [10^-ndigits] nearest to [x], ties to even. *)
Definition py_round (x : Q) (ndigits : nat) : Q :=
  inject_Z (round_half_even (x * pow10 ndigits)) / pow10 ndigits.

End Num.
Export Num.

(** ** Sensor model *)

(** [class SensorType(str, Enum)]: six members, each of which is a string
    (it hashes and compares as its value). *)
Inductive SensorType : Type :=
  | TEMPERATURE | PRESSURE | FORCE | ACCELERATION | POSITION | LIGHT.

Definition SensorType_value (s : SensorType) : string :=
  match s with
  | TEMPERATURE => "temperature"
  | PRESSURE => "pressure"
  | FORCE => "force"
  | ACCELERATION => "acceleration"
  | POSITION => "position"
  | LIGHT => "light"
  end.

(** The dictionary literal of [get_unit_for_sensor]. *)
Definition units : gmap string string :=
  <[SensorType_value TEMPERATURE := "C"]>
  (<[SensorType_value PRESSURE := "kPa"]>
  (<[SensorType_value FORCE := "N"]>
  (<[SensorType_value ACCELERATION := "m/s²"]>
  (<[SensorType_value POSITION := "mm"]>
  (<[SensorType_value LIGHT := "lux"]> ∅))))).

(** [units.get(sensor_type, "")] *)
Definition get_unit_for_sensor (sensor_type : string) : string :=
  default "" (units !! sensor_type).

(** ** Sample generator *)

(** The dictionary returned by [generate_sensor_data]. *)
Record Reading : Type := mkReading {
  r_type : string;
  r_value : Q;
  r_timestamp : Q;
  r_unit : string
}.

(** The two results of [random.random()] and the result of [time.time()],
    in the order in which the function asks for them. *)
Record Draws : Type := mkDraws {
  draw_base : Q;
  draw_noise : Q;
  draw_time : Q
}.

Definition base_value (min_val max_val : Q) (d : Draws) : Q :=
  min_val + draw_base d * (max_val - min_val).

Definition noise_value (min_val max_val noise : Q) (d : Draws) : Q :=
  (draw_noise d * 2 - 1) * noise * (max_val - min_val).

Definition generate_sensor_data
    (sensor_type : string) (min_val max_val noise : Q) (d : Draws) : Reading :=
  let value := base_value min_val max_val d + noise_value min_val max_val noise d in
  let timestamp := draw_time d in
  {| r_type := sensor_type;
     r_value := py_round value 3;
     r_timestamp := timestamp;
     r_unit := get_unit_for_sensor sensor_type |}.

(** ** Run configuration *)

Definition DEFAULT_HOST : string := "192.168.1.100".
Definition DEFAULT_PORT : Z := 8080.

(** [class SimulationConfig(BaseModel)].  The model declares the types of
    the fields and nothing else: no validator, no field constraint. *)
Record SimulationConfig : Type := mkConfig {
  sensor_type : SensorType;
  min_value : Q;
  max_value : Q;
  noise_factor : Q;
  sample_rate_hz : Q;
  host : string;
  port : Z
}.

(** [SimulationConfig()] *)
Definition default_config : SimulationConfig :=
  {| sensor_type := TEMPERATURE;
     min_value := 0;
     max_value := 100;
     noise_factor := 1 # 10;
     sample_rate_hz := 1;
     host := DEFAULT_HOST;
     port := DEFAULT_PORT |}.

#[export] Instance SimulationConfig_inhabited : Inhabited SimulationConfig :=
  populate default_config.

(** [class SimulationStatus(BaseModel)] *)
Record SimulationStatus : Type := mkStatus {
  running : bool;
  status_sensor_type : option SensorType;
  status_sample_rate_hz : option Q;
  uptime_seconds : option Q
}.

(** ** Program state *)

(** A reference to a [SimulationConfig] object: its index in the store. *)
Definition ref : Type := nat.
Bind Scope nat_scope with ref.

(** Where a thread that runs [simulation_worker] stands. *)
Inductive Phase : Type :=
  | Started     (* [Thread.start()] was called, the body has not run *)
  | Listening   (* at the test of the outer [while] *)
  | Streaming   (* at the test of the inner [while], a client is connected *)
  | Finished.   (* the function has returned *)

(** A [threading.Thread] with [target=simulation_worker]; [args] holds the
    configuration object the thread was given, by reference. *)
Record Thread : Type := mkThread {
  t_config : ref;
  t_phase : Phase
}.

(** Lines the worker prints. *)
Inductive Line : Type :=
  | ServerStarted (h : string) (p : Z)
  | ConnectionFrom
  | Received (text : string)
  | ErrorInClientConnection
  | ErrorInSimulationThread
  | SimulationStopped.

(** Calls with an effect outside the program's variables, as they happen. *)
Inductive Effect : Type :=
  | EventClear
  | EventSet
  | ThreadStart (t : nat) (config : ref)
  | ThreadJoin (t : nat) (timeout : Q)
  | SockBind (t : nat) (h : string) (p : Z)
  | SockClose (t : nat)
  | ClientClose (t : nat)
  | SendAll (t : nat) (data : Reading)
  | Sleep (t : nat) (seconds : Q)
  | PrintLine (t : nat) (line : Line).

(** The globals of the module ([simulation_running], [simulation_thread],
    [stop_event], [active_config], [start_time]), the store of configuration
    objects, the threads created so far and the effects so far.
    [stop_event] is the flag of the one [threading.Event] the module creates;
    every worker is given that same object. *)
Record World : Type := mkWorld {
  simulation_running : bool;
  simulation_thread : option nat;
  stop_event : bool;
  active_config : ref;
  start_time : option Q;
  configs : list SimulationConfig;
  threads : list Thread;
  trace : list Effect
}.

(** The state after the module has been imported. *)
Definition initial_world : World :=
  {| simulation_running := false;
     simulation_thread := None;
     stop_event := false;
     active_config := 0;
     start_time := None;
     configs := [default_config];
     threads := [];
     trace := [] |}.

(** Reading the fields of the object behind a reference. *)
Definition deref (w : World) (r : ref) : SimulationConfig := configs w !!! r.

Definition emit (es : list Effect) (w : World) : World :=
  {| simulation_running := simulation_running w;
     simulation_thread := simulation_thread w;
     stop_event := stop_event w;
     active_config := active_config w;
     start_time := start_time w;
     configs := configs w;
     threads := threads w;
     trace := trace w ++ es |}.

Definition set_phase (t : nat) (p : Phase) (w : World) : World :=
  {| simulation_running := simulation_running w;
     simulation_thread := simulation_thread w;
     stop_event := stop_event w;
     active_config := active_config w;
     start_time := start_time w;
     configs := configs w;
     threads := alter (fun th => {| t_config := t_config th; t_phase := p |}) t (threads w);
     trace := trace w |}.

Definition set_start_time (now : Q) (w : World) : World :=
  {| simulation_running := simulation_running w;
     simulation_thread := simulation_thread w;
     stop_event := stop_event w;
     active_config := active_config w;
     start_time := Some now;
     configs := configs w;
     threads := threads w;
     trace := trace w |}.

Definition set_stop_event (b : bool) (w : World) : World :=
  {| simulation_running := simulation_running w;
     simulation_thread := simulation_thread w;
     stop_event := b;
     active_config := active_config w;
     start_time := start_time w;
     configs := configs w;
     threads := threads w;
     trace := trace w |}.

Definition set_simulation_running (b : bool) (w : World) : World :=
  {| simulation_running := b;
     simulation_thread := simulation_thread w;
     stop_event := stop_event w;
     active_config := active_config w;
     start_time := start_time w;
     configs := configs w;
     threads := threads w;
     trace := trace w |}.

(** ** Text *)

(** The characters that [str.strip()] removes, as UTF-8 byte sequences:
    U+0009..U+000D, U+001C..U+0020, U+0085, U+00A0, U+1680, U+2000..U+200A,
    U+2028, U+2029, U+202F, U+205F and U+3000. *)
Definition whitespace : list string :=
  map (fun codes => string_of_list_ascii (map Ascii.ascii_of_nat codes))
    [[9]; [10]; [11]; [12]; [13]; [28]; [29]; [30]; [31]; [32];
     [194; 133]; [194; 160]; [225; 154; 128];
     [226; 128; 128]; [226; 128; 129]; [226; 128; 130]; [226; 128; 131];
     [226; 128; 132]; [226; 128; 133]; [226; 128; 134]; [226; 128; 135];
     [226; 128; 136]; [226; 128; 137]; [226; 128; 138];
     [226; 128; 168]; [226; 128; 169]; [226; 128; 175]; [226; 129; 159];
     [227; 128; 128]]%nat.

(** [s] without the prefix [p], when it starts with [p]. *)
Fixpoint strip_prefix (p s : string) : option string :=
  match p with
  | EmptyString => Some s
  | String a p' =>
      match s with
      | String b s' => if Ascii.eqb a b then strip_prefix p' s' else None
      | EmptyString => None
      end
  end.

Fixpoint strip_first (ps : list string) (s : string) : option string :=
  match ps with
  | [] => None
  | p :: ps' =>
      match strip_prefix p s with
      | Some r => Some r
      | None => strip_first ps' s
      end
  end.

(** Removes leading members of [ps]; each removal takes at least one byte,
    so [fuel] = length of the text is enough. *)
Fixpoint lstrip_fuel (fuel : nat) (ps : list string) (s : string) : string :=
  match fuel with
  | O => s
  | S n =>
      match strip_first ps s with
      | Some r => lstrip_fuel n ps r
      | None => s
      end
  end.

Definition lstrip (ps : list string) (s : string) : string :=
  lstrip_fuel (String.length s) ps s.

Definition reverse_string (s : string) : string :=
  string_of_list_ascii (rev (list_ascii_of_string s)).

(** [text.strip()] for a text given by its UTF-8 bytes. *)
Definition strip (s : string) : string :=
  reverse_string
    (lstrip (map reverse_string whitespace) (reverse_string (lstrip whitespace s))).

(** ** Streaming worker *)

(** What the operating system answers when the worker sets its socket up:
    [socket.socket] raises, or a later call of the set-up ([bind], and the
    same path for [setsockopt] and [listen]) raises, or all succeed. *)
Inductive SetupResult : Type := SocketRaises | BindRaises | SetupOk.

Inductive AcceptResult : Type := AcceptTimeout | AcceptRaises | Accepted.

Inductive SendResult : Type := SendTimeout | SendRaises | Sent.

(** [RecvBytes text] carries the bytes received; [RecvBytes ""] is the empty
    answer of a closed connection; [RecvRaises] also stands for bytes that
    do not decode. *)
Inductive RecvResult : Type := RecvTimeout | RecvRaises | RecvBytes (text : string).

(** Everything one step of a worker may ask of its environment. *)
Record WorkerEnv : Type := mkEnv {
  env_now : Q;
  env_setup : SetupResult;
  env_accept : AcceptResult;
  env_draws : Draws;
  env_send : SendResult;
  env_recv : RecvResult
}.

(** The [finally] of the function: close the listener if there is one. *)
Definition worker_exit (t : nat) (sock : bool) (w : World) : World :=
  set_phase t Finished
    (emit ((if sock then [SockClose t] else []) ++ [PrintLine t SimulationStopped]) w).

(** An exception other than [socket.timeout] inside the client block: the
    inner [finally] closes the client, the handler prints and sleeps. *)
Definition client_fault (t : nat) (w : World) : World :=
  set_phase t Listening
    (emit [ClientClose t; PrintLine t ErrorInClientConnection; Sleep t 1] w).

(** [time.sleep] keeps the length as nanoseconds in a signed 64-bit integer. *)
Definition sleep_overflow : Q := inject_Z (2 ^ 63).

(** [time.sleep(1.0 / config.sample_rate_hz)]: the division raises
    [ZeroDivisionError] for a zero rate, and [sleep] raises [ValueError] for a
    negative length and [OverflowError] for a length that does not fit
    (a positive rate below about 1.1e-10). *)
Definition sample_sleep (t : nat) (c : SimulationConfig) (w : World) : World :=
  if Qeq_bool (sample_rate_hz c) 0 then client_fault t w
  else if Qle_bool 0 (1 / sample_rate_hz c) then
    if Qle_bool sleep_overflow (1 / sample_rate_hz c * 1000000000) then client_fault t w
    else emit [Sleep t (1 / sample_rate_hz c)] w
  else client_fault t w.

(** One step of the thread [t]: from the start of the function to the first
    loop test, or one pass from a loop test to the next one. *)
Definition simulation_worker (t : nat) (e : WorkerEnv) (w : World) : World :=
  match threads w !! t with
  | None => w
  | Some th =>
    let c := deref w (t_config th) in
    match t_phase th with
    | Finished => w
    | Started =>
      let w := set_start_time (env_now e) w in
      match env_setup e with
      | SocketRaises =>
          worker_exit t false (emit [PrintLine t ErrorInSimulationThread] w)
      | BindRaises =>
          worker_exit t true
            (emit [SockBind t (host c) (port c); PrintLine t ErrorInSimulationThread] w)
      | SetupOk =>
          set_phase t Listening
            (emit [SockBind t (host c) (port c); PrintLine t (ServerStarted (host c) (port c))] w)
      end
    | Listening =>
      if stop_event w then worker_exit t true w
      else
        match env_accept e with
        | AcceptTimeout => w
        | AcceptRaises => emit [PrintLine t ErrorInClientConnection; Sleep t 1] w
        | Accepted => set_phase t Streaming (emit [PrintLine t ConnectionFrom] w)
        end
    | Streaming =>
      if stop_event w then set_phase t Listening (emit [ClientClose t] w)
      else
        let data :=
          generate_sensor_data (SensorType_value (sensor_type c))
            (min_value c) (max_value c) (noise_factor c) (env_draws e) in
        match env_send e with
        | SendTimeout => set_phase t Listening (emit [ClientClose t] w)
        | SendRaises => client_fault t w
        | Sent =>
          let w := emit [SendAll t data] w in
          match env_recv e with
          | RecvRaises => client_fault t w
          | RecvTimeout => sample_sleep t c w
          | RecvBytes text =>
              sample_sleep t c
                (if String.eqb text "" then w
                 else emit [PrintLine t (Received (strip text))] w)
          end
        end
    end
  end.

(** ** Control handlers *)

(** What a handler returns, or the exception it raises. *)
Inductive Response : Type :=
  | RespMessage (message : string)
  | RespMessageConfig (message : string) (config : ref)
  | RespConfig (config : ref)
  | RespRunningFalse
  | RespStatus (s : SimulationStatus)
  | RespReading (data : Reading)
  | HTTPException (status_code : Z) (detail : string).

(** [POST /start] *)
Definition start_simulation (w : World) : Response * World :=
  if simulation_running w then (RespMessage "Simulation already running", w)
  else
    let t := length (threads w) in
    (RespMessageConfig "Simulation started" (active_config w),
     {| simulation_running := true;
        simulation_thread := Some t;
        stop_event := false;
        active_config := active_config w;
        start_time := start_time w;
        configs := configs w;
        threads := threads w ++ [{| t_config := active_config w; t_phase := Started |}];
        trace := trace w ++ [EventClear; ThreadStart t (active_config w)] |}).

Definition is_finished (t : nat) (w : World) : bool :=
  match threads w !! t with
  | Some {| t_phase := Finished |} => true
  | _ => false
  end.

(** While a handler is blocked in [join], the worker threads run: [sched]
    lists the steps they take in that window.  The wait ends as soon as the
    joined thread has finished, and otherwise when the window is over. *)
Fixpoint join_wait (t : nat) (sched : list (nat * WorkerEnv)) (w : World) : World :=
  match sched with
  | [] => w
  | (u, e) :: sched' =>
      if is_finished t w then w else join_wait t sched' (simulation_worker u e w)
  end.

(** [thread.join(timeout=...)] *)
Definition Thread_join (t : nat) (timeout : Q) (sched : list (nat * WorkerEnv))
    (w : World) : World :=
  join_wait t sched (emit [ThreadJoin t timeout] w).

(** [POST /stop] *)
Definition stop_simulation (sched : list (nat * WorkerEnv)) (w : World)
    : Response * World :=
  if negb (simulation_running w) then (RespMessage "No simulation running", w)
  else
    let w := emit [EventSet] (set_stop_event true w) in
    let w :=
      match simulation_thread w with
      | Some t => Thread_join t 5 sched w
      | None => w
      end in
    (RespMessage "Simulation stopped", set_simulation_running false w).

(** [GET /status] *)
Definition get_status (now : Q) (w : World) : Response * World :=
  if negb (simulation_running w) then (RespRunningFalse, w)
  else
    let uptime :=
      match start_time w with
      | Some s => if Qeq_bool s 0 then 0 else now - s
      | None => 0
      end in
    (RespStatus
       {| running := simulation_running w;
          status_sensor_type := Some (sensor_type (deref w (active_config w)));
          status_sample_rate_hz := Some (sample_rate_hz (deref w (active_config w)));
          uptime_seconds := Some (py_round uptime 1) |},
     w).

(** [GET /config] *)
Definition get_config (w : World) : Response * World :=
  (RespConfig (active_config w), w).

(** [POST /config].  The body is an object made for this request; the
    global is bound to it. *)
Definition update_config (config : SimulationConfig) (w : World) : Response * World :=
  if simulation_running w then
    (HTTPException 400
       "Cannot update configuration while simulation is running. Stop the simulation first.",
     w)
  else
    let r := length (configs w) in
    (RespMessageConfig "Configuration updated" r,
     {| simulation_running := simulation_running w;
        simulation_thread := simulation_thread w;
        stop_event := stop_event w;
        active_config := r;
        start_time := start_time w;
        configs := configs w ++ [config];
        threads := threads w;
        trace := trace w |}).

(** [GET /generate-sample] *)
Definition generate_sample (d : Draws) (w : World) : Response * World :=
  let c := deref w (active_config w) in
  (RespReading
     (generate_sensor_data (SensorType_value (sensor_type c))
        (min_value c) (max_value c) (noise_factor c) d),
   w).

(** ** The system as a whole *)

(** A request to the API, or a step of a worker thread.  The handlers are
    coroutines without an [await]: a request runs from its first statement
    to its last before the next request starts.  Worker threads run between
    requests, and also while [stop_simulation] is blocked in its join. *)
Inductive Action : Type :=
  | Start
  | Stop (sched : list (nat * WorkerEnv))
  | Status (now : Q)
  | GetConfig
  | UpdateConfig (config : SimulationConfig)
  | GenerateSample (d : Draws)
  | Worker (t : nat) (e : WorkerEnv).

Definition step (a : Action) (w : World) : World :=
  match a with
  | Start => snd (start_simulation w)
  | Stop sched => snd (stop_simulation sched w)
  | Status now => snd (get_status now w)
  | GetConfig => snd (get_config w)
  | UpdateConfig config => snd (update_config config w)
  | GenerateSample d => snd (generate_sample d w)
  | Worker t e => simulation_worker t e w
  end.

Definition run (acts : list Action) (w : World) : World :=
  fold_left (fun w a => step a w) acts w.

(** Every reference held by the program names an object of the store. *)
Definition well_formed (w : World) : Prop :=
  (active_config w < length (configs w))%nat /\
  Forall (fun r : ref => (r < length (configs w))%nat) (t_config <$> threads w).

(** While the running flag is set, the recorded thread is one that exists. *)
Definition thread_recorded (w : World) : Prop :=
  simulation_running w = true ->
  exists t : nat, simulation_thread w = Some t /\ (t < length (threads w))%nat.

(** The states the program can be in. *)
Definition reachable (w : World) : Prop :=
  exists acts : list Action, w = run acts initial_world.

(** Objects and threads are only ever added; a thread keeps the reference
    it was given. *)
Record grows (w w' : World) : Prop := mkGrows {
  grows_configs : exists extra, configs w' = configs w ++ extra;
  grows_refs : exists extra, t_config <$> threads w' = (t_config <$> threads w) ++ extra
}.

(** ** Frame of a worker step *)

(** A step of a worker assigns [start_time], moves the phase of its own
    thread and adds effects: the other globals and the store are as before. *)
Record worker_frame (w w' : World) : Prop := mkFrame {
  frame_running : simulation_running w' = simulation_running w;
  frame_thread : simulation_thread w' = simulation_thread w;
  frame_stop_event : stop_event w' = stop_event w;
  frame_active_config : active_config w' = active_config w;
  frame_configs : configs w' = configs w;
  frame_refs : t_config <$> threads w' = t_config <$> threads w;
  frame_trace : exists es, trace w' = trace w ++ es
}.

(** ** Sample inputs *)

(** A configuration with [min_value = max_value = 0.0004]. *)
Definition flat_config : SimulationConfig :=
  {| sensor_type := TEMPERATURE;
     min_value := 1 # 2500;
     max_value := 1 # 2500;
     noise_factor := 1 # 10;
     sample_rate_hz := 1;
     host := DEFAULT_HOST;
     port := DEFAULT_PORT |}.

(** A configuration that breaks each of the four documented invariants. *)
Definition broken_config : SimulationConfig :=
  {| sensor_type := PRESSURE;
     min_value := 10;
     max_value := 0;
     noise_factor := - (1 # 2);
     sample_rate_hz := 0;
     host := DEFAULT_HOST;
     port := 0 |}.

(** [random.random()] returning 0.99 and then 0.5, at time 0. *)
Definition high_draws : Draws :=
  {| draw_base := 99 # 100; draw_noise := 1 # 2; draw_time := 0 |}.

(** An environment in which every call of the worker succeeds and the
    client stays silent. *)
Definition quiet_env : WorkerEnv :=
  {| env_now := 1000;
     env_setup := SetupOk;
     env_accept := Accepted;
     env_draws := high_draws;
     env_send := Sent;
     env_recv := RecvTimeout |}.

(** The same, except that [bind] raises (the address is in use, say). *)
Definition bind_fails_env : WorkerEnv :=
  {| env_now := 1000;
     env_setup := BindRaises;
     env_accept := Accepted;
     env_draws := high_draws;
     env_send := Sent;
     env_recv := RecvTimeout |}.

(** ** Observations on executions *)

(** The phase of thread [t], if there is such a thread. *)
Definition phase_of (t : nat) (w : World) : option Phase :=
  t_phase <$> threads w !! t.

(** The two loops of the worker: its listening socket is open. *)
Definition in_loop (p : option Phase) : bool :=
  match p with
  | Some Listening | Some Streaming => true
  | _ => false
  end.

Definition is_streaming (p : option Phase) : bool :=
  match p with
  | Some Streaming => true
  | _ => false
  end.

(** How many loop tests a worker has at most before it returns, once the
    event is set. *)
Definition steps_to_exit (p : option Phase) : nat :=
  match p with
  | Some Started => 2
  | Some Streaming => 2
  | Some Listening => 1
  | _ => 0
  end.

(** Worker threads taking steps, with no request in between. *)
Definition run_workers (sched : list (nat * WorkerEnv)) (w : World) : World :=
  fold_left (fun w ue => simulation_worker (fst ue) (snd ue) w) sched w.

(** The number of steps of thread [t] in a schedule. *)
Definition steps_of (t : nat) (sched : list (nat * WorkerEnv)) : nat :=
  length (filter (fun ue => fst ue = t) sched).

(** The reading a worker sends for the configuration [c]. *)
Definition reading_of (c : SimulationConfig) (d : Draws) : Reading :=
  generate_sensor_data (SensorType_value (sensor_type c))
    (min_value c) (max_value c) (noise_factor c) d.

(** An effect that a step of thread [t] may have in the state [w]: a socket
    call, a line or a sleep of its own, and for a reading one made from the
    configuration object the thread holds. *)
Definition worker_effect (t : nat) (w : World) (eff : Effect) : Prop :=
  match eff with
  | EventClear | EventSet | ThreadStart _ _ | ThreadJoin _ _ => False
  | SockBind u _ _ | SockClose u | ClientClose u | Sleep u _ | PrintLine u _ => u = t
  | SendAll u data =>
      u = t /\
      exists th d, threads w !! t = Some th /\ data = reading_of (deref w (t_config th)) d
  end.

(** Counting the effects of a kind in a trace. *)
Definition count_effects (p : Effect -> bool) (es : list Effect) : nat :=
  length (List.filter p es).

Definition announces_client (t : nat) (eff : Effect) : bool :=
  match eff with
  | PrintLine u ConnectionFrom => Nat.eqb u t
  | _ => false
  end.

Definition closes_client (t : nat) (eff : Effect) : bool :=
  match eff with
  | ClientClose u => Nat.eqb u t
  | _ => false
  end.

Definition binds_listener (t : nat) (eff : Effect) : bool :=
  match eff with
  | SockBind u _ _ => Nat.eqb u t
  | _ => false
  end.

Definition closes_listener (t : nat) (eff : Effect) : bool :=
  match eff with
  | SockClose u => Nat.eqb u t
  | _ => false
  end.

(** Every client a worker has announced is closed, except the one it is
    streaming to; every listener it has bound is closed, except the one of
    a worker that is in its loops. *)
Definition sockets_balanced (w : World) : Prop :=
  forall t : nat,
    count_effects (announces_client t) (trace w)
    = (count_effects (closes_client t) (trace w)
       + (if is_streaming (phase_of t w) then 1 else 0))%nat /\
    count_effects (binds_listener t) (trace w)
    = (count_effects (closes_listener t) (trace w)
       + (if in_loop (phase_of t w) then 1 else 0))%nat.

(** Every reading in the trace was made from the configuration object of
    the thread that sent it. *)
Definition readings_from_config (w : World) : Prop :=
  forall (t : nat) (data : Reading),
    In (SendAll t data) (trace w) ->
    exists th d, threads w !! t = Some th /\ data = reading_of (deref w (t_config th)) d.

(** The time [get_status] rounds: since [start_time], when there is one. *)
Definition uptime_at (now : Q) (w : World) : Q :=
  match start_time w with
  | Some s => if Qeq_bool s 0 then 0 else now - s
  | None => 0
  end.

(** The lines a worker prints for what the client sent back. *)
Definition received_lines (t : nat) (r : RecvResult) : list Effect :=
  match r with
  | RecvBytes text =>
      if String.eqb text "" then [] else [PrintLine t (Received (strip text))]
  | _ => []
  end.

(** The effects of the handlers themselves: on the event and on threads. *)
Definition control_effect (eff : Effect) : Prop :=
  match eff with
  | EventClear | EventSet | ThreadStart _ _ | ThreadJoin _ _ => True
  | _ => False
  end.

(** The draws handed to the steps of thread [t] in a schedule. *)
Definition worker_draws (t : nat) (sched : list (nat * WorkerEnv)) : list Draws :=
  flat_map (fun ue => if Nat.eqb (fst ue) t then [env_draws (snd ue)] else []) sched.

(** The draws handed to thread [t] by one action, and by a list of them. *)
Definition action_draws (t : nat) (a : Action) : list Draws :=
  match a with
  | Worker u e => worker_draws t [(u, e)]
  | Stop sched => worker_draws t sched
  | _ => []
  end.

Definition supplied_draws (t : nat) (acts : list Action) : list Draws :=
  flat_map (action_draws t) acts.

(** * Properties *)

(** ** Decimal rounding *)

Lemma round_half_even_near (x : Q) :
  x - (1 # 2) <= inject_Z (round_half_even x) /\
  inject_Z (round_half_even x) <= x + (1 # 2).
Proof.
  unfold round_half_even.
  pose proof (Qfloor_le x) as Hlo.
  pose proof (Qlt_floor x) as Hhi.
  rewrite inject_Z_plus in Hhi. change (inject_Z 1) with 1 in Hhi.
  destruct (Qcompare_spec (x - inject_Z (Qfloor x)) (1 # 2)) as [He|Hl|Hg].
  - destruct (Z.even (Qfloor x)); rewrite ?inject_Z_plus;
      change (inject_Z 1) with 1; split; lra.
  - split; lra.
  - rewrite inject_Z_plus. change (inject_Z 1) with 1. split; lra.
Qed.

Lemma round_half_even_mono (x y : Q) :
  x <= y -> (round_half_even x <= round_half_even y)%Z.
Proof.
  intros Hxy.
  pose proof (Qfloor_resp_le _ _ Hxy) as Hf.
  destruct (Z.eq_dec (Qfloor x) (Qfloor y)) as [Heq|Hne].
  - unfold round_half_even. rewrite Heq.
    destruct (Qcompare_spec (x - inject_Z (Qfloor y)) (1 # 2)) as [He|Hl|Hg];
    destruct (Qcompare_spec (y - inject_Z (Qfloor y)) (1 # 2)) as [He'|Hl'|Hg'];
    try destruct (Z.even (Qfloor y)); try lia; exfalso; lra.
  - assert (Hx : (round_half_even x <= Qfloor x + 1)%Z).
    { unfold round_half_even.
      destruct (Qcompare (x - inject_Z (Qfloor x)) (1 # 2));
        try destruct (Z.even (Qfloor x)); lia. }
    assert (Hy : (Qfloor y <= round_half_even y)%Z).
    { unfold round_half_even.
      destruct (Qcompare (y - inject_Z (Qfloor y)) (1 # 2));
        try destruct (Z.even (Qfloor y)); lia. }
    lia.
Qed.

Lemma pow10_pos (n : nat) : 0 < pow10 n.
Proof.
  unfold pow10. change 0 with (inject_Z 0). rewrite <- Zlt_Qlt.
  apply Z.pow_pos_nonneg; lia.
Qed.

Lemma py_round_mono (x y : Q) (n : nat) : x <= y -> py_round x n <= py_round y n.
Proof.
  intros Hxy. unfold py_round.
  pose proof (pow10_pos n) as Hp.
  apply Qmult_le_compat_r.
  - rewrite <- Zle_Qle. apply round_half_even_mono.
    apply Qmult_le_compat_r; [exact Hxy | apply Qlt_le_weak, Hp].
  - apply Qlt_le_weak, Qinv_lt_0_compat, Hp.
Qed.

(** ** Units *)

Lemma get_unit_for_sensor_member (s : SensorType) :
  get_unit_for_sensor (SensorType_value s) =
  match s with
  | TEMPERATURE => "C"
  | PRESSURE => "kPa"
  | FORCE => "N"
  | ACCELERATION => "m/s²"
  | POSITION => "mm"
  | LIGHT => "lux"
  end.
Proof. destruct s; reflexivity. Qed.

Lemma get_unit_for_sensor_other (kind : string) :
  (forall s, kind <> SensorType_value s) -> get_unit_for_sensor kind = "".
Proof.
  intros H. unfold get_unit_for_sensor, units.
  rewrite !lookup_insert_ne by (intros E; exact (H _ (eq_sym E))).
  rewrite lookup_empty. reflexivity.
Qed.

(** ** What a worker step can change *)

Lemma worker_frame_refl (w : World) : worker_frame w w.
Proof. split; try reflexivity. exists []. by rewrite app_nil_r. Qed.

Lemma worker_frame_trans (w1 w2 w3 : World) :
  worker_frame w1 w2 -> worker_frame w2 w3 -> worker_frame w1 w3.
Proof.
  intros [] []. split; try congruence.
  destruct frame_trace0 as [es1 H1], frame_trace1 as [es2 H2].
  exists (es1 ++ es2). by rewrite H2, H1, app_assoc.
Qed.

Lemma worker_frame_emit (es : list Effect) (w : World) : worker_frame w (emit es w).
Proof. split; try reflexivity. by exists es. Qed.

Lemma worker_frame_set_start_time (now : Q) (w : World) :
  worker_frame w (set_start_time now w).
Proof. split; try reflexivity. exists []. by rewrite app_nil_r. Qed.

Lemma worker_frame_set_phase (t : nat) (p : Phase) (w : World) :
  worker_frame w (set_phase t p w).
Proof.
  split; try reflexivity.
  - simpl. generalize t. induction (threads w) as [|th l IH]; intros [|n]; simpl;
      try reflexivity.
    f_equal. apply IH.
  - exists []. by rewrite app_nil_r.
Qed.

(** Chains of the three updates. *)
Ltac frame_chain :=
  repeat first
    [ apply worker_frame_refl
    | eapply worker_frame_trans; [|apply worker_frame_set_phase]
    | eapply worker_frame_trans; [|apply worker_frame_emit]
    | eapply worker_frame_trans; [|apply worker_frame_set_start_time] ].

Lemma simulation_worker_frame (t : nat) (e : WorkerEnv) (w : World) :
  worker_frame w (simulation_worker t e w).
Proof.
  unfold simulation_worker, sample_sleep, client_fault, worker_exit.
  repeat case_match; frame_chain.
Qed.

Lemma join_wait_frame (t : nat) (sched : list (nat * WorkerEnv)) (w : World) :
  worker_frame w (join_wait t sched w).
Proof.
  revert w. induction sched as [|[u e] sched IH]; intros w; simpl.
  - apply worker_frame_refl.
  - destruct (is_finished t w); [apply worker_frame_refl|].
    eapply worker_frame_trans; [apply simulation_worker_frame | apply IH].
Qed.

(** ** Updating the configuration *)

(** C1 (amended).  While no simulation runs, [update_config] checks nothing
    about the submitted configuration: for every configuration it answers
    "Configuration updated", the active configuration is from then on the
    submitted object as a whole, [get_config] returns it, and the objects
    that existed before and the other globals are as they were. *)
Theorem update_config_idle_accepts (config : SimulationConfig) (w : World) :
  simulation_running w = false ->
  let r := length (configs w) in
  let w' := snd (update_config config w) in
  fst (update_config config w) = RespMessageConfig "Configuration updated" r /\
  active_config w' = r /\
  deref w' (active_config w') = config /\
  get_config w' = (RespConfig r, w') /\
  (forall r0 : ref, (r0 < length (configs w))%nat -> deref w' r0 = deref w r0) /\
  simulation_running w' = false /\
  simulation_thread w' = simulation_thread w /\
  stop_event w' = stop_event w /\
  start_time w' = start_time w /\
  threads w' = threads w /\
  trace w' = trace w.
Proof.
  intros Hidle. cbv zeta. unfold update_config. rewrite Hidle. simpl.
  repeat split.
  - unfold deref. simpl. apply list_lookup_total_middle. reflexivity.
  - intros r0 Hr0. unfold deref. simpl. by apply lookup_total_app_l.
Qed.

(** The theorem at the initial state and a configuration that breaks every
    documented invariant. *)
Lemma update_config_idle_accepts_witness :
  simulation_running initial_world = false /\
  fst (update_config broken_config initial_world)
  = RespMessageConfig "Configuration updated" 1 /\
  deref (snd (update_config broken_config initial_world))
    (active_config (snd (update_config broken_config initial_world)))
  = broken_config.
Proof.
  assert (Hidle : simulation_running initial_world = false) by reflexivity.
  destruct (update_config_idle_accepts broken_config initial_world Hidle)
    as (Hr & _ & Hd & _).
  split; [exact Hidle|]. split; [exact Hr | exact Hd].
Defined.

(** C1, as the design document states it, fails: a configuration with
    [min_value > max_value], a negative noise factor, a zero sample rate and
    port 0 is accepted while idle and becomes the active configuration. *)
Lemma update_config_idle_counterexample :
  let w' := snd (update_config broken_config initial_world) in
  ~ (min_value broken_config <= max_value broken_config) /\
  ~ (0 <= noise_factor broken_config) /\
  ~ (0 < sample_rate_hz broken_config) /\
  ~ (1 <= port broken_config <= 65535)%Z /\
  simulation_running initial_world = false /\
  deref initial_world (active_config initial_world) = default_config /\
  fst (update_config broken_config initial_world)
  = RespMessageConfig "Configuration updated" 1 /\
  deref w' (active_config w') = broken_config.
Proof.
  cbv zeta. repeat split; try reflexivity.
  - intros H. apply H. reflexivity.
  - intros H. apply H. reflexivity.
  - intros H. discriminate H.
  - simpl. lia.
Qed.

(** C5.  While a simulation runs, [update_config] raises the HTTP error 400
    that says the configuration cannot be updated, for every submitted
    configuration, and nothing changes: the state after the call is the state
    before it, the active configuration included. *)
Theorem update_config_running_locked (config : SimulationConfig) (w : World) :
  simulation_running w = true ->
  update_config config w
  = (HTTPException 400
       "Cannot update configuration while simulation is running. Stop the simulation first.",
     w) /\
  active_config (snd (update_config config w)) = active_config w /\
  deref (snd (update_config config w)) (active_config (snd (update_config config w)))
  = deref w (active_config w).
Proof.
  intros Hrun. unfold update_config. rewrite Hrun. simpl. repeat split.
Qed.

(** The theorem after a start from the initial state. *)
Lemma update_config_running_locked_witness :
  simulation_running (snd (start_simulation initial_world)) = true /\
  deref (snd (update_config broken_config (snd (start_simulation initial_world))))
    (active_config (snd (update_config broken_config (snd (start_simulation initial_world)))))
  = default_config.
Proof.
  assert (Hrun : simulation_running (snd (start_simulation initial_world)) = true)
    by reflexivity.
  destruct (update_config_running_locked broken_config
              (snd (start_simulation initial_world)) Hrun) as (_ & _ & Hd).
  split; [exact Hrun|]. rewrite Hd. reflexivity.
Defined.

(** ** Starting *)

(** C7.  While a simulation runs, [start_simulation] answers "Simulation
    already running" and the state after the call is the state before it:
    no thread is added, no effect happens (no bind, no clearing of the
    event), and the running flag, the active configuration and the recorded
    thread are as before.  In particular the second of two starts in a row
    takes this path. *)
Theorem start_simulation_idempotent (w : World) :
  simulation_running w = true ->
  start_simulation w = (RespMessage "Simulation already running", w) /\
  threads (snd (start_simulation w)) = threads w /\
  trace (snd (start_simulation w)) = trace w /\
  simulation_thread (snd (start_simulation w)) = simulation_thread w /\
  active_config (snd (start_simulation w)) = active_config w /\
  (forall w0 : World,
     start_simulation (snd (start_simulation w0))
     = (RespMessage "Simulation already running", snd (start_simulation w0))).
Proof.
  intros Hrun.
  assert (H : forall w1, simulation_running w1 = true ->
                start_simulation w1 = (RespMessage "Simulation already running", w1)).
  { intros w1 H1. unfold start_simulation. by rewrite H1. }
  rewrite (H w Hrun). simpl. repeat split.
  intros w0. apply H. unfold start_simulation.
  destruct (simulation_running w0) eqn:E; simpl; [exact E | reflexivity].
Qed.

(** The theorem after a start from the initial state. *)
Lemma start_simulation_idempotent_witness :
  simulation_running (snd (start_simulation initial_world)) = true /\
  start_simulation (snd (start_simulation initial_world))
  = (RespMessage "Simulation already running", snd (start_simulation initial_world)).
Proof.
  assert (Hrun : simulation_running (snd (start_simulation initial_world)) = true)
    by reflexivity.
  split; [exact Hrun|].
  exact (proj1 (start_simulation_idempotent (snd (start_simulation initial_world)) Hrun)).
Defined.

Lemma start_simulation_idle (w : World) :
  simulation_running w = false ->
  start_simulation w
  = (RespMessageConfig "Simulation started" (active_config w),
     {| simulation_running := true;
        simulation_thread := Some (length (threads w));
        stop_event := false;
        active_config := active_config w;
        start_time := start_time w;
        configs := configs w;
        threads := threads w ++ [{| t_config := active_config w; t_phase := Started |}];
        trace := trace w ++ [EventClear; ThreadStart (length (threads w)) (active_config w)] |}).
Proof. intros H. unfold start_simulation. by rewrite H. Qed.

(** C2 (amended).  While no simulation runs, [start_simulation] does not
    bind and cannot fail: it clears the event, sets the running flag, starts
    a thread on the active configuration and answers "Simulation started";
    no socket call is among its effects.  The bind is the business of the
    first step of the worker: when it succeeds the worker listens, and when
    it raises the worker prints the error, closes the socket and returns,
    so that the failure never reaches the caller of [start_simulation]. *)
Theorem start_simulation_idle_spawns (w : World) :
  simulation_running w = false ->
  let t := length (threads w) in
  let c := deref w (active_config w) in
  let w' := snd (start_simulation w) in
  fst (start_simulation w) = RespMessageConfig "Simulation started" (active_config w) /\
  simulation_running w' = true /\
  simulation_thread w' = Some t /\
  stop_event w' = false /\
  threads w' = threads w ++ [{| t_config := active_config w; t_phase := Started |}] /\
  trace w' = trace w ++ [EventClear; ThreadStart t (active_config w)] /\
  (forall e : WorkerEnv, env_setup e = SetupOk ->
     threads (simulation_worker t e w') !! t
     = Some {| t_config := active_config w; t_phase := Listening |} /\
     trace (simulation_worker t e w')
     = trace w' ++ [SockBind t (host c) (port c);
                    PrintLine t (ServerStarted (host c) (port c))]) /\
  (forall e : WorkerEnv, env_setup e = BindRaises ->
     is_finished t (simulation_worker t e w') = true /\
     trace (simulation_worker t e w')
     = trace w' ++ [SockBind t (host c) (port c); PrintLine t ErrorInSimulationThread;
                    SockClose t; PrintLine t SimulationStopped]).
Proof.
  intros Hidle. cbv zeta. rewrite (start_simulation_idle w Hidle). simpl.
  split; [reflexivity|]. split; [reflexivity|]. split; [reflexivity|].
  split; [reflexivity|]. split; [reflexivity|]. split; [reflexivity|].
  split; intros e He; unfold simulation_worker; simpl;
    rewrite list_lookup_middle by reflexivity; simpl; rewrite He;
    unfold worker_exit, is_finished; simpl;
    rewrite list_lookup_alter_eq, list_lookup_middle by reflexivity; simpl;
    rewrite <- ?app_assoc; split; reflexivity.
Qed.

(** The theorem at the initial state, with a bind that raises. *)
Lemma start_simulation_idle_spawns_witness :
  simulation_running initial_world = false /\
  env_setup bind_fails_env = BindRaises /\
  fst (start_simulation initial_world) = RespMessageConfig "Simulation started" 0 /\
  is_finished 0 (simulation_worker 0 bind_fails_env (snd (start_simulation initial_world)))
  = true.
Proof.
  assert (Hidle : simulation_running initial_world = false) by reflexivity.
  assert (He : env_setup bind_fails_env = BindRaises) by reflexivity.
  destruct (start_simulation_idle_spawns initial_world Hidle)
    as (Hr & _ & _ & _ & _ & _ & _ & Hb).
  split; [exact Hidle|]. split; [exact He|]. split; [exact Hr|].
  exact (proj1 (Hb bind_fails_env He)).
Defined.

(** C2, as the design document states it, fails: from the initial state
    [start_simulation] returns "Simulation started" with the running flag
    set and without any bind among its effects; the bind that then raises in
    the worker ends the worker, and the running flag is still set. *)
Lemma start_simulation_bind_counterexample :
  let w1 := snd (start_simulation initial_world) in
  let w2 := simulation_worker 0 bind_fails_env w1 in
  simulation_running initial_world = false /\
  fst (start_simulation initial_world) = RespMessageConfig "Simulation started" 0 /\
  trace w1 = [EventClear; ThreadStart 0 0] /\
  simulation_running w1 = true /\
  threads w1 = [{| t_config := 0; t_phase := Started |}] /\
  trace w2 = [EventClear; ThreadStart 0 0;
              SockBind 0 DEFAULT_HOST DEFAULT_PORT; PrintLine 0 ErrorInSimulationThread;
              SockClose 0; PrintLine 0 SimulationStopped] /\
  is_finished 0 w2 = true /\
  simulation_running w2 = true.
Proof. cbv zeta. repeat split. Qed.

(** ** Stopping *)

Lemma stop_simulation_running (sched : list (nat * WorkerEnv)) (w : World) :
  simulation_running w = true ->
  stop_simulation sched w
  = (RespMessage "Simulation stopped",
     set_simulation_running false
       match simulation_thread w with
       | Some t => Thread_join t 5 sched (emit [EventSet] (set_stop_event true w))
       | None => emit [EventSet] (set_stop_event true w)
       end).
Proof. intros H. unfold stop_simulation. by rewrite H. Qed.

Lemma Thread_join_frame (t : nat) (timeout : Q) (sched : list (nat * WorkerEnv))
    (w : World) :
  worker_frame w (Thread_join t timeout sched w) /\
  exists es, trace (Thread_join t timeout sched w) = trace w ++ [ThreadJoin t timeout] ++ es.
Proof.
  unfold Thread_join.
  pose proof (join_wait_frame t sched (emit [ThreadJoin t timeout] w)) as F.
  split.
  - eapply worker_frame_trans; [apply worker_frame_emit | exact F].
  - destruct (frame_trace _ _ F) as [es Hes]. exists es.
    rewrite Hes. simpl. by rewrite <- app_assoc.
Qed.

Lemma thread_recorded_step (a : Action) (w : World) :
  thread_recorded w -> thread_recorded (step a w).
Proof.
  unfold thread_recorded. intros Hw.
  destruct a as [|sched|now| |config|d|t e]; simpl.
  - unfold start_simulation. destruct (simulation_running w) eqn:Hrun; simpl.
    + intros _. by apply Hw.
    + intros _. exists (length (threads w)). split; [reflexivity|].
      rewrite length_app. simpl. lia.
  - destruct (simulation_running w) eqn:Hrun.
    + rewrite (stop_simulation_running sched w Hrun). simpl. discriminate.
    + unfold stop_simulation. rewrite Hrun. simpl. intros H. congruence.
  - unfold get_status. destruct (simulation_running w) eqn:Hrun; simpl;
      intros H; apply Hw; congruence.
  - exact Hw.
  - unfold update_config. destruct (simulation_running w) eqn:Hrun; simpl.
    + intros H. apply Hw. congruence.
    + intros H. congruence.
  - exact Hw.
  - pose proof (simulation_worker_frame t e w) as F.
    rewrite (frame_running _ _ F), (frame_thread _ _ F).
    intros Hrun. destruct (Hw Hrun) as (t0 & Ht0 & Hlt). exists t0.
    split; [exact Ht0|].
    rewrite <- (length_fmap t_config), (frame_refs _ _ F), length_fmap. exact Hlt.
Qed.

Lemma reachable_thread_recorded (w : World) : reachable w -> thread_recorded w.
Proof.
  intros [acts ->].
  assert (H : forall w0, thread_recorded w0 -> thread_recorded (run acts w0)).
  { induction acts as [|a acts IH]; intros w0 H0; simpl; [exact H0|].
    apply IH, thread_recorded_step, H0. }
  apply H. intros Hrun. discriminate Hrun.
Qed.

(** C4.  Without a running simulation, [stop_simulation] answers "No
    simulation running" and changes nothing.  With one, it sets the event,
    joins the recorded thread with a timeout of 5 seconds and, whatever the
    threads do while it waits (the worker may finish or not), clears the
    running flag before it answers "Simulation stopped"; the active
    configuration is untouched.  In every state the program can reach, a
    set running flag comes with a recorded thread, so the join does happen. *)
Theorem stop_simulation_returns_idle :
  (forall (sched : list (nat * WorkerEnv)) (w : World),
     simulation_running w = false ->
     stop_simulation sched w = (RespMessage "No simulation running", w)) /\
  (forall (sched : list (nat * WorkerEnv)) (w : World),
     simulation_running w = true ->
     let w' := snd (stop_simulation sched w) in
     fst (stop_simulation sched w) = RespMessage "Simulation stopped" /\
     simulation_running w' = false /\
     stop_event w' = true /\
     active_config w' = active_config w /\
     configs w' = configs w /\
     (forall t : nat, simulation_thread w = Some t ->
        exists es, trace w' = trace w ++ [EventSet; ThreadJoin t 5] ++ es)) /\
  (forall w : World,
     reachable w -> simulation_running w = true ->
     exists t : nat, simulation_thread w = Some t /\ (t < length (threads w))%nat).
Proof.
  split; [|split].
  - intros sched w Hidle. unfold stop_simulation. by rewrite Hidle.
  - intros sched w Hrun. cbv zeta. rewrite (stop_simulation_running sched w Hrun).
    simpl. split; [reflexivity|]. split; [reflexivity|].
    destruct (simulation_thread w) as [t|] eqn:Ht.
    + destruct (Thread_join_frame t 5 sched (emit [EventSet] (set_stop_event true w)))
        as [F [es Hes]].
      split; [by rewrite (frame_stop_event _ _ F)|].
      split; [by rewrite (frame_active_config _ _ F)|].
      split; [by rewrite (frame_configs _ _ F)|].
      intros t' [= <-]. exists es. rewrite Hes. simpl. by rewrite <- app_assoc.
    + simpl. repeat split. intros t' [=].
  - intros w Hw. exact (reachable_thread_recorded w Hw).
Qed.

(** A run that is stopped while its worker waits for a client: when the
    worker gets to run during the join it sees the event and returns. *)
Lemma stop_simulation_then_worker_returns :
  let w := simulation_worker 0 quiet_env (snd (start_simulation initial_world)) in
  let w' := snd (stop_simulation [(0%nat, quiet_env)] w) in
  simulation_running w = true /\ is_finished 0 w' = true /\ simulation_running w' = false.
Proof. cbv zeta. repeat split. Qed.

(** The same run when the worker does not get to its loop test before the
    join gives up. *)
Lemma stop_simulation_worker_still_alive :
  let w := simulation_worker 0 quiet_env (snd (start_simulation initial_world)) in
  let w' := snd (stop_simulation [] w) in
  simulation_running w = true /\ is_finished 0 w' = false /\ simulation_running w' = false.
Proof. cbv zeta. repeat split. Qed.

(** The theorem at these two runs, at the initial state and at the state
    after one start. *)
Lemma stop_simulation_returns_idle_witness :
  let w := simulation_worker 0 quiet_env (snd (start_simulation initial_world)) in
  (simulation_running initial_world = false /\
   stop_simulation [] initial_world = (RespMessage "No simulation running", initial_world)) /\
  (simulation_running w = true /\
   simulation_running (snd (stop_simulation [(0%nat, quiet_env)] w)) = false /\
   simulation_running (snd (stop_simulation [] w)) = false) /\
  (reachable (run [Start] initial_world) /\
   simulation_running (run [Start] initial_world) = true /\
   exists t : nat, simulation_thread (run [Start] initial_world) = Some t /\
                   (t < length (threads (run [Start] initial_world)))%nat).
Proof.
  cbv zeta.
  destruct stop_simulation_returns_idle as (Hidle & Hrun & Hrec).
  assert (H0 : simulation_running initial_world = false) by reflexivity.
  assert (H1 : simulation_running
                 (simulation_worker 0 quiet_env (snd (start_simulation initial_world)))
               = true) by reflexivity.
  assert (H2 : reachable (run [Start] initial_world)) by (exists [Start]; reflexivity).
  assert (H3 : simulation_running (run [Start] initial_world) = true) by reflexivity.
  split; [|split].
  - split; [exact H0|]. exact (Hidle [] initial_world H0).
  - split; [exact H1|]. split.
    + exact (proj1 (proj2 (Hrun [(0%nat, quiet_env)] _ H1))).
    + exact (proj1 (proj2 (Hrun [] _ H1))).
  - split; [exact H2|]. split; [exact H3|]. exact (Hrec _ H2 H3).
Defined.

(** ** The configuration objects over a whole execution *)

Lemma grows_refl (w : World) : grows w w.
Proof. split; exists []; by rewrite app_nil_r. Qed.

Lemma grows_trans (w1 w2 w3 : World) : grows w1 w2 -> grows w2 w3 -> grows w1 w3.
Proof.
  intros [[c1 Hc1] [r1 Hr1]] [[c2 Hc2] [r2 Hr2]]. split.
  - exists (c1 ++ c2). by rewrite Hc2, Hc1, app_assoc.
  - exists (r1 ++ r2). by rewrite Hr2, Hr1, app_assoc.
Qed.

Lemma worker_frame_grows (w w' : World) : worker_frame w w' -> grows w w'.
Proof.
  intros F. split; exists [].
  - by rewrite (frame_configs _ _ F), app_nil_r.
  - by rewrite (frame_refs _ _ F), app_nil_r.
Qed.

Lemma stop_simulation_frame (sched : list (nat * WorkerEnv)) (w : World) :
  configs (snd (stop_simulation sched w)) = configs w /\
  active_config (snd (stop_simulation sched w)) = active_config w /\
  t_config <$> threads (snd (stop_simulation sched w)) = t_config <$> threads w /\
  simulation_thread (snd (stop_simulation sched w)) = simulation_thread w.
Proof.
  destruct (simulation_running w) eqn:Hrun.
  - rewrite (stop_simulation_running sched w Hrun). simpl.
    destruct (simulation_thread w) as [t|] eqn:Ht; [|by rewrite ?Ht].
    destruct (Thread_join_frame t 5 sched (emit [EventSet] (set_stop_event true w)))
      as [F _].
    rewrite (frame_configs _ _ F), (frame_active_config _ _ F), (frame_refs _ _ F),
      (frame_thread _ _ F).
    by rewrite ?Ht.
  - unfold stop_simulation. by rewrite Hrun.
Qed.

Lemma step_grows (a : Action) (w : World) : grows w (step a w).
Proof.
  destruct a as [|sched|now| |config|d|t e]; simpl.
  - unfold start_simulation. destruct (simulation_running w); simpl.
    + apply grows_refl.
    + split; simpl.
      * exists []. by rewrite app_nil_r.
      * exists [active_config w]. by rewrite fmap_app.
  - destruct (stop_simulation_frame sched w) as (Hc & _ & Hr & _).
    split; exists []; by rewrite ?Hc, ?Hr, app_nil_r.
  - unfold get_status. destruct (simulation_running w); apply grows_refl.
  - apply grows_refl.
  - unfold update_config. destruct (simulation_running w); simpl.
    + apply grows_refl.
    + split; simpl.
      * by exists [config].
      * exists []. by rewrite app_nil_r.
  - apply grows_refl.
  - apply worker_frame_grows, simulation_worker_frame.
Qed.

Lemma run_grows (acts : list Action) (w : World) : grows w (run acts w).
Proof.
  revert w. induction acts as [|a acts IH]; intros w; simpl.
  - apply grows_refl.
  - eapply grows_trans; [apply step_grows | apply IH].
Qed.

Lemma grows_deref (w w' : World) (r : ref) :
  grows w w' -> (r < length (configs w))%nat -> deref w' r = deref w r.
Proof.
  intros [[extra Hc] _] Hr. unfold deref. rewrite Hc. by apply lookup_total_app_l.
Qed.

Lemma grows_thread (w w' : World) (t : nat) (th : Thread) :
  grows w w' -> threads w !! t = Some th ->
  exists th', threads w' !! t = Some th' /\ t_config th' = t_config th.
Proof.
  intros [_ [extra Hr]] Ht.
  assert (H : (t_config <$> threads w') !! t = Some (t_config th)).
  { rewrite Hr, lookup_app_l.
    - by rewrite list_lookup_fmap, Ht.
    - rewrite length_fmap. by eapply lookup_lt_Some. }
  rewrite list_lookup_fmap in H.
  destruct (threads w' !! t) as [th'|]; [|discriminate].
  exists th'. split; [reflexivity|]. by injection H.
Qed.

Lemma well_formed_initial : well_formed initial_world.
Proof. split; simpl; [lia | constructor]. Qed.

Lemma well_formed_step (a : Action) (w : World) :
  well_formed w -> well_formed (step a w).
Proof.
  intros [Ha Hf]. destruct a as [|sched|now| |config|d|t e]; simpl.
  - unfold start_simulation. destruct (simulation_running w); simpl; [by split|].
    split; simpl; [exact Ha|].
    rewrite fmap_app. apply Forall_app. split; [exact Hf|]. by repeat constructor.
  - destruct (stop_simulation_frame sched w) as (Hc & Hac & Hr & _).
    split; by rewrite ?Hc, ?Hac, ?Hr.
  - unfold get_status. destruct (simulation_running w); by split.
  - by split.
  - unfold update_config. destruct (simulation_running w); simpl; [by split|].
    split; simpl; rewrite length_app; simpl; [lia|].
    eapply Forall_impl; [exact Hf|]. simpl. intros; lia.
  - by split.
  - pose proof (simulation_worker_frame t e w) as F.
    split; by rewrite ?(frame_configs _ _ F), ?(frame_active_config _ _ F),
      ?(frame_refs _ _ F).
Qed.

Lemma well_formed_run (acts : list Action) (w : World) :
  well_formed w -> well_formed (run acts w).
Proof.
  revert w. induction acts as [|a acts IH]; intros w Hw; simpl; [exact Hw|].
  apply IH, well_formed_step, Hw.
Qed.

Lemma reachable_well_formed (w : World) : reachable w -> well_formed w.
Proof. intros [acts ->]. apply well_formed_run, well_formed_initial. Qed.

(** C3 (amended).  [start_simulation] makes no copy: the thread it starts
    holds a reference to the very object that is the active configuration,
    and the store has no new object.  No request and no worker step ever
    writes into an existing configuration object ([update_config] binds the
    global to a new object), so whatever requests and worker steps follow
    the start, the thread still holds that reference and the object behind
    it reads as it did when the run started. *)
Theorem worker_config_never_modified (w : World) (acts : list Action) :
  well_formed w ->
  simulation_running w = false ->
  let t := length (threads w) in
  let r := active_config w in
  let w1 := snd (start_simulation w) in
  threads w1 !! t = Some {| t_config := r; t_phase := Started |} /\
  active_config w1 = r /\
  configs w1 = configs w /\
  (exists th : Thread, threads (run acts w1) !! t = Some th /\ t_config th = r) /\
  deref (run acts w1) r = deref w r.
Proof.
  intros [Ha _] Hidle. cbv zeta.
  rewrite (start_simulation_idle w Hidle). simpl.
  set (w1 := {| simulation_running := true |}).
  assert (Ht : threads w1 !! length (threads w)
               = Some {| t_config := active_config w; t_phase := Started |})
    by (simpl; by apply list_lookup_middle).
  split; [exact Ht|]. split; [reflexivity|]. split; [reflexivity|].
  pose proof (run_grows acts w1) as G.
  split.
  - exact (grows_thread _ _ _ _ G Ht).
  - change (deref w (active_config w)) with (deref w1 (active_config w)).
    apply grows_deref; [exact G | exact Ha].
Qed.

(** The theorem for a run that is started in the initial state, stopped
    before its worker has finished, followed by a new configuration and a
    step of the old worker. *)
Lemma worker_config_never_modified_witness :
  well_formed initial_world /\
  simulation_running initial_world = false /\
  deref (run [Worker 0 quiet_env; Stop []; UpdateConfig broken_config; Worker 0 quiet_env]
           (snd (start_simulation initial_world))) 0
  = default_config.
Proof.
  assert (Hidle : simulation_running initial_world = false) by reflexivity.
  assert (Hwf : well_formed initial_world) by (split; simpl; [lia | constructor]).
  split; [exact Hwf|]. split; [exact Hidle|].
  exact (proj2 (proj2 (proj2 (proj2
    (worker_config_never_modified initial_world
       [Worker 0 quiet_env; Stop []; UpdateConfig broken_config; Worker 0 quiet_env]
       Hwf Hidle))))).
Defined.

(** C3, as the design document states it, fails: after a start from the
    initial state the reference held by the new thread is the reference
    held by [active_config], and the store still has its one object. *)
Lemma start_simulation_snapshot_counterexample :
  let w1 := snd (start_simulation initial_world) in
  simulation_running initial_world = false /\
  threads w1 !! 0%nat = Some {| t_config := active_config w1; t_phase := Started |} /\
  configs w1 = configs initial_world /\
  length (configs w1) = 1%nat.
Proof. cbv zeta. repeat split. Qed.

(** * Further properties of the worker and of the handlers *)

(** ** Phases of a worker *)

Lemma reachable_ind (P : World -> Prop) :
  P initial_world ->
  (forall a w, P w -> P (step a w)) ->
  forall w, reachable w -> P w.
Proof.
  intros H0 Hs w [acts ->].
  assert (H : forall w0, P w0 -> P (run acts w0)).
  { induction acts as [|a acts IH]; intros w0 Hw0; simpl; [exact Hw0|].
    apply IH, Hs, Hw0. }
  apply H, H0.
Qed.

Lemma is_finished_phase (t : nat) (w : World) :
  is_finished t w = true <-> phase_of t w = Some Finished.
Proof.
  unfold is_finished, phase_of.
  destruct (threads w !! t) as [[c []]|]; simpl; split; congruence.
Qed.

Lemma phase_of_set_phase (t u : nat) (p : Phase) (w : World) :
  phase_of u (set_phase t p w)
  = if decide (t = u) then (fun _ => p) <$> phase_of u w else phase_of u w.
Proof.
  unfold phase_of, set_phase. simpl. rewrite list_lookup_alter.
  destruct (decide (t = u)) as [->|]; [|reflexivity].
  destruct (threads w !! u); reflexivity.
Qed.

(** Unfolds one step of a worker whose thread is known. *)
Ltac worker_cases :=
  unfold simulation_worker, sample_sleep, client_fault, worker_exit;
  repeat case_match; simplify_eq/=.

Lemma worker_other_phase (t u : nat) (e : WorkerEnv) (w : World) :
  t <> u -> phase_of u (simulation_worker t e w) = phase_of u w.
Proof.
  intros Hne.
  assert (H : forall p w0, phase_of u (set_phase t p w0) = phase_of u w0).
  { intros p w0. rewrite phase_of_set_phase. by destruct (decide (t = u)). }
  worker_cases; rewrite ?H; reflexivity.
Qed.

Lemma worker_finished_stays (t : nat) (e : WorkerEnv) (w : World) :
  phase_of t w = Some Finished -> simulation_worker t e w = w.
Proof.
  unfold phase_of, simulation_worker. intros H.
  destruct (threads w !! t) as [[c p]|]; simpl in *; [|reflexivity].
  by simplify_eq.
Qed.

Lemma worker_missing_stays (t : nat) (e : WorkerEnv) (w : World) :
  phase_of t w = None -> simulation_worker t e w = w.
Proof.
  unfold phase_of, simulation_worker. intros H.
  by destruct (threads w !! t).
Qed.

(** With the event set, each step of a worker brings it nearer to its
    return. *)
Lemma worker_step_descends (t : nat) (e : WorkerEnv) (w : World) :
  stop_event w = true ->
  (steps_to_exit (phase_of t (simulation_worker t e w))
   <= pred (steps_to_exit (phase_of t w)))%nat.
Proof.
  intros Hstop.
  destruct (phase_of t w) as [p|] eqn:Hp.
  - unfold phase_of in Hp.
    destruct (threads w !! t) as [[c p']|] eqn:Hlk; simpl in Hp; [|discriminate].
    injection Hp as ->.
    unfold simulation_worker, sample_sleep, client_fault, worker_exit.
    rewrite Hlk. simpl.
    destruct p; simpl; rewrite ?Hstop; repeat case_match;
      rewrite ?phase_of_set_phase; repeat case_decide; try done;
      unfold phase_of; simpl; rewrite ?Hlk; simpl; lia.
  - rewrite (worker_missing_stays t e w Hp), Hp. simpl. lia.
Qed.

(** With the event clear, a worker that is in its loops stays in them. *)
Lemma worker_step_in_loop (t : nat) (e : WorkerEnv) (w : World) :
  stop_event w = false ->
  in_loop (phase_of t w) = true ->
  in_loop (phase_of t (simulation_worker t e w)) = true.
Proof.
  intros Hstop Hin.
  unfold phase_of in Hin.
  destruct (threads w !! t) as [[c p]|] eqn:Hlk; simpl in Hin; [|discriminate].
  unfold simulation_worker, sample_sleep, client_fault, worker_exit.
  rewrite Hlk. simpl.
  destruct p; simpl in *; try discriminate; rewrite ?Hstop; repeat case_match;
    rewrite ?phase_of_set_phase; repeat case_decide; try done;
    unfold phase_of; simpl; rewrite ?Hlk; simpl; done.
Qed.

Lemma worker_effects (t : nat) (e : WorkerEnv) (w : World) :
  exists es, trace (simulation_worker t e w) = trace w ++ es /\
             Forall (worker_effect t w) es.
Proof.
  worker_cases;
    first
      [ exists []; split; [by rewrite app_nil_r | constructor]
      | eexists; split;
        [ rewrite <- ?app_assoc; reflexivity
        | repeat constructor; simpl; eauto ] ].
Qed.

Lemma run_workers_frame (sched : list (nat * WorkerEnv)) (w : World) :
  worker_frame w (run_workers sched w).
Proof.
  revert w. induction sched as [|[u e] sched IH]; intros w; simpl.
  - apply worker_frame_refl.
  - eapply worker_frame_trans; [apply simulation_worker_frame | apply IH].
Qed.

Lemma frame_phase_exists (t : nat) (w w' : World) :
  worker_frame w w' -> is_Some (phase_of t w) -> is_Some (phase_of t w').
Proof.
  intros F. unfold phase_of. rewrite !fmap_is_Some, !lookup_lt_is_Some.
  by rewrite <- (length_fmap t_config (threads w')), (frame_refs _ _ F), length_fmap.
Qed.

Lemma steps_of_cons (t u : nat) (e : WorkerEnv) (sched : list (nat * WorkerEnv)) :
  steps_of t ((u, e) :: sched)
  = ((if decide (u = t) then 1 else 0) + steps_of t sched)%nat.
Proof.
  unfold steps_of. rewrite filter_cons. simpl.
  destruct (decide (u = t)); reflexivity.
Qed.

Lemma run_workers_descends (t : nat) (sched : list (nat * WorkerEnv)) (w : World) :
  stop_event w = true ->
  (steps_to_exit (phase_of t (run_workers sched w))
   <= steps_to_exit (phase_of t w) - steps_of t sched)%nat.
Proof.
  revert w. induction sched as [|[u e] sched IH]; intros w Hstop.
  - simpl. unfold steps_of. simpl. lia.
  - change (run_workers ((u, e) :: sched) w)
      with (run_workers sched (simulation_worker u e w)).
    rewrite steps_of_cons.
    assert (Hstop' : stop_event (simulation_worker u e w) = true)
      by (rewrite (frame_stop_event _ _ (simulation_worker_frame u e w)); exact Hstop).
    specialize (IH _ Hstop').
    destruct (decide (u = t)) as [->|Hne].
    + pose proof (worker_step_descends t e w Hstop). lia.
    + rewrite (worker_other_phase u t e w Hne) in IH. lia.
Qed.

Lemma run_workers_in_loop (t : nat) (sched : list (nat * WorkerEnv)) (w : World) :
  stop_event w = false ->
  in_loop (phase_of t w) = true ->
  in_loop (phase_of t (run_workers sched w)) = true.
Proof.
  revert w. induction sched as [|[u e] sched IH]; intros w Hstop Hin; [exact Hin|].
  change (run_workers ((u, e) :: sched) w)
    with (run_workers sched (simulation_worker u e w)).
  apply IH.
  - by rewrite (frame_stop_event _ _ (simulation_worker_frame u e w)).
  - destruct (decide (u = t)) as [->|Hne].
    + by apply worker_step_in_loop.
    + by rewrite (worker_other_phase u t e w Hne).
Qed.

(** ** Cancellation *)

Lemma run_workers_finishes (t : nat) (sched : list (nat * WorkerEnv)) (w : World) :
  stop_event w = true ->
  is_Some (phase_of t w) ->
  (steps_to_exit (phase_of t w) <= steps_of t sched)%nat ->
  is_finished t (run_workers sched w) = true.
Proof.
  intros Hstop Hex Hn.
  pose proof (run_workers_descends t sched w Hstop) as Hd.
  pose proof (frame_phase_exists t _ _ (run_workers_frame sched w) Hex) as [p Hp].
  apply is_finished_phase. rewrite Hp in *.
  destruct p; simpl in Hd; try lia. reflexivity.
Qed.

(** X1.  Once the event is set, a worker returns after at most two of its
    own steps (one from the listening loop, two from the streaming loop or
    from its beginning), whatever the sockets and the client do and however
    the steps of other workers are interleaved, as long as nobody clears the
    event. *)
Theorem worker_returns_once_event_set
    (t : nat) (sched : list (nat * WorkerEnv)) (w : World) :
  stop_event w = true ->
  is_Some (phase_of t w) ->
  (steps_to_exit (phase_of t w) <= steps_of t sched)%nat ->
  is_finished t (run_workers sched w) = true /\
  (steps_to_exit (phase_of t w) <= 2)%nat.
Proof.
  intros Hstop Hex Hn. split.
  - by apply run_workers_finishes.
  - destruct (phase_of t w) as [[]|]; simpl; lia.
Qed.

(** The theorem for a worker that streams to a client when the event is
    set: two steps, the second after a step of a thread that does not exist. *)
Lemma worker_returns_once_event_set_witness :
  let w := set_stop_event true
             (run_workers [(0, quiet_env); (0, quiet_env)]%nat
                (snd (start_simulation initial_world))) in
  let sched := [(0, bind_fails_env); (7, quiet_env); (0, bind_fails_env)]%nat in
  stop_event w = true /\
  phase_of 0 w = Some Streaming /\
  is_finished 0 (run_workers sched w) = true.
Proof.
  cbv zeta.
  assert (Hs : stop_event (set_stop_event true
             (run_workers [(0, quiet_env); (0, quiet_env)]%nat
                (snd (start_simulation initial_world)))) = true) by reflexivity.
  assert (Hp : phase_of 0 (set_stop_event true
             (run_workers [(0, quiet_env); (0, quiet_env)]%nat
                (snd (start_simulation initial_world)))) = Some Streaming) by reflexivity.
  split; [exact Hs|]. split; [exact Hp|].
  refine (proj1 (worker_returns_once_event_set 0
            [(0, bind_fails_env); (7, quiet_env); (0, bind_fails_env)]%nat _ Hs _ _)).
  - rewrite Hp. by eexists.
  - rewrite Hp. vm_compute. lia.
Defined.

Lemma join_wait_cases (t : nat) (sched : list (nat * WorkerEnv)) (w : World) :
  is_finished t (join_wait t sched w) = true \/
  join_wait t sched w = run_workers sched w.
Proof.
  revert w. induction sched as [|[u e] sched IH]; intros w; simpl.
  - by right.
  - destruct (is_finished t w) eqn:Hf; [by left | apply IH].
Qed.

(** X2.  When the worker recorded for the run gets enough steps while
    [stop_simulation] waits in its join (two at most), it has returned by
    the time [stop_simulation] answers. *)
Theorem stop_simulation_joins_worker
    (t : nat) (sched : list (nat * WorkerEnv)) (w : World) :
  simulation_running w = true ->
  simulation_thread w = Some t ->
  is_Some (phase_of t w) ->
  (steps_to_exit (phase_of t w) <= steps_of t sched)%nat ->
  fst (stop_simulation sched w) = RespMessage "Simulation stopped" /\
  is_finished t (snd (stop_simulation sched w)) = true /\
  simulation_running (snd (stop_simulation sched w)) = false.
Proof.
  intros Hrun Ht Hex Hn.
  rewrite (stop_simulation_running sched w Hrun), Ht. simpl.
  split; [reflexivity|]. split; [|reflexivity].
  unfold Thread_join.
  set (w1 := emit [ThreadJoin t 5] (emit [EventSet] (set_stop_event true w))).
  assert (Hfin : is_finished t (join_wait t sched w1) = true).
  { destruct (join_wait_cases t sched w1) as [H|H]; [exact H|].
    rewrite H.
    by apply run_workers_finishes. }
  exact Hfin.
Qed.

(** The theorem for a run whose worker listens when the stop arrives. *)
Lemma stop_simulation_joins_worker_witness :
  let w := run [Start; Worker 0 quiet_env] initial_world in
  simulation_running w = true /\
  simulation_thread w = Some 0%nat /\
  phase_of 0 w = Some Listening /\
  is_finished 0 (snd (stop_simulation [(0%nat, quiet_env)] w)) = true.
Proof.
  cbv zeta.
  assert (Hr : simulation_running (run [Start; Worker 0 quiet_env] initial_world) = true)
    by reflexivity.
  assert (Ht : simulation_thread (run [Start; Worker 0 quiet_env] initial_world)
               = Some 0%nat) by reflexivity.
  assert (Hp : phase_of 0 (run [Start; Worker 0 quiet_env] initial_world)
               = Some Listening) by reflexivity.
  split; [exact Hr|]. split; [exact Ht|]. split; [exact Hp|].
  refine (proj1 (proj2 (stop_simulation_joins_worker 0 [(0%nat, quiet_env)] _ Hr Ht _ _))).
  - rewrite Hp. by eexists.
  - rewrite Hp. vm_compute. lia.
Defined.

(** ** A worker between start and stop *)

(** X3.  While the event is clear, a worker that has bound its socket does
    not return: a failed [accept], a failed or timed out [sendall], a failed
    [recv], a zero or negative sample rate all lead back to one of its two
    loops, whatever the interleaving with other workers. *)
Theorem worker_survives_faults
    (t : nat) (sched : list (nat * WorkerEnv)) (w : World) :
  stop_event w = false ->
  in_loop (phase_of t w) = true ->
  in_loop (phase_of t (run_workers sched w)) = true /\
  is_finished t (run_workers sched w) = false /\
  stop_event (run_workers sched w) = false.
Proof.
  intros Hstop Hin.
  pose proof (run_workers_in_loop t sched w Hstop Hin) as H.
  split; [exact H|]. split.
  - destruct (is_finished t (run_workers sched w)) eqn:Hf; [|reflexivity].
    apply is_finished_phase in Hf. rewrite Hf in H. discriminate H.
  - by rewrite (frame_stop_event _ _ (run_workers_frame sched w)).
Qed.

(** The theorem for a streaming worker whose client resets the connection
    and whose next [accept] fails. *)
Lemma worker_survives_faults_witness :
  let w := run [Start; Worker 0 quiet_env; Worker 0 quiet_env] initial_world in
  let faulty :=
    {| env_now := 0; env_setup := BindRaises; env_accept := AcceptRaises;
       env_draws := high_draws; env_send := SendRaises; env_recv := RecvRaises |} in
  stop_event w = false /\
  phase_of 0 w = Some Streaming /\
  phase_of 0 (run_workers [(0%nat, faulty); (0%nat, faulty)] w) = Some Listening /\
  is_finished 0 (run_workers [(0%nat, faulty); (0%nat, faulty)] w) = false.
Proof.
  cbv zeta.
  assert (Hs : stop_event (run [Start; Worker 0 quiet_env; Worker 0 quiet_env]
                             initial_world) = false) by reflexivity.
  assert (Hp : in_loop (phase_of 0 (run [Start; Worker 0 quiet_env; Worker 0 quiet_env]
                                      initial_world)) = true) by reflexivity.
  split; [exact Hs|]. split; [reflexivity|]. split; [reflexivity|].
  exact (proj1 (proj2 (worker_survives_faults 0 _ _ Hs Hp))).
Defined.

Lemma event_clear_step (a : Action) (w : World) :
  (simulation_running w = true -> stop_event w = false) ->
  simulation_running (step a w) = true -> stop_event (step a w) = false.
Proof.
  intros Hw.
  destruct a as [|sched|now| |config|d|t e]; simpl.
  - unfold start_simulation. destruct (simulation_running w) eqn:Hrun; simpl; auto.
  - destruct (simulation_running w) eqn:Hrun.
    + rewrite (stop_simulation_running sched w Hrun). simpl. discriminate.
    + unfold stop_simulation. rewrite Hrun. simpl. congruence.
  - unfold get_status. destruct (simulation_running w) eqn:Hrun; simpl;
      intros; auto; congruence.
  - exact Hw.
  - unfold update_config. destruct (simulation_running w) eqn:Hrun; simpl;
      intros; auto; congruence.
  - exact Hw.
  - pose proof (simulation_worker_frame t e w) as F.
    by rewrite (frame_running _ _ F), (frame_stop_event _ _ F).
Qed.

(** X4.  In every state the program can reach, a set running flag comes
    with a clear event: the event is only ever set by a stop request, which
    also clears the flag.  So between a start and the next stop no worker
    that is in its loops returns. *)
Theorem running_event_clear (w : World) :
  reachable w ->
  simulation_running w = true ->
  stop_event w = false /\
  (forall (t : nat) (sched : list (nat * WorkerEnv)),
     in_loop (phase_of t w) = true ->
     is_finished t (run_workers sched w) = false).
Proof.
  intros Hreach Hrun.
  assert (Hclear : stop_event w = false).
  { revert Hrun. pattern w. revert w Hreach. apply reachable_ind.
    - discriminate.
    - exact event_clear_step. }
  split; [exact Hclear|].
  intros t sched Hin.
  pose proof (run_workers_in_loop t sched w Hclear Hin) as H.
  destruct (is_finished t (run_workers sched w)) eqn:Hf; [|reflexivity].
  apply is_finished_phase in Hf. rewrite Hf in H. discriminate H.
Qed.

(** The theorem after a start, a stop and a second start. *)
Lemma running_event_clear_witness :
  let w := run [Start; Worker 0 quiet_env; Stop []; Start] initial_world in
  reachable w /\ simulation_running w = true /\ stop_event w = false.
Proof.
  cbv zeta.
  assert (Hreach : reachable (run [Start; Worker 0 quiet_env; Stop []; Start]
                                initial_world)) by (eexists; reflexivity).
  assert (Hrun : simulation_running (run [Start; Worker 0 quiet_env; Stop []; Start]
                                       initial_world) = true) by reflexivity.
  split; [exact Hreach|]. split; [exact Hrun|].
  exact (proj1 (running_event_clear _ Hreach Hrun)).
Defined.

(** X5.  [start_simulation] clears the one event that every worker polls
    and leaves the earlier threads as they are: a worker that was still in
    its loops when [stop_simulation] gave up waiting goes on after the next
    start, beside the new worker, and does not return until a later stop. *)
Theorem start_simulation_revives_worker
    (t : nat) (sched : list (nat * WorkerEnv)) (w : World) :
  simulation_running w = false ->
  in_loop (phase_of t w) = true ->
  let w1 := snd (start_simulation w) in
  stop_event w1 = false /\
  phase_of t w1 = phase_of t w /\
  phase_of (length (threads w)) w1 = Some Started /\
  t <> length (threads w) /\
  is_finished t (run_workers sched w1) = false.
Proof.
  intros Hidle Hin. cbv zeta. rewrite (start_simulation_idle w Hidle). simpl.
  set (w1 := {| simulation_running := true |}).
  assert (Hlt : (t < length (threads w))%nat).
  { unfold phase_of in Hin. destruct (threads w !! t) eqn:Hlk; [|discriminate].
    by eapply lookup_lt_Some. }
  assert (Hp : phase_of t w1 = phase_of t w).
  { unfold phase_of. simpl. by rewrite lookup_app_l. }
  split; [reflexivity|]. split; [exact Hp|]. split.
  - unfold phase_of. simpl. by rewrite list_lookup_middle.
  - split; [lia|].
    assert (Hin1 : in_loop (phase_of t w1) = true) by (by rewrite Hp).
    pose proof (run_workers_in_loop t sched w1 eq_refl Hin1) as H.
    destruct (is_finished t (run_workers sched w1)) eqn:Hf; [|reflexivity].
    apply is_finished_phase in Hf. rewrite Hf in H. discriminate H.
Qed.

(** The theorem for a worker that listens, a stop whose join sees no step
    of it, and a new start. *)
Lemma start_simulation_revives_worker_witness :
  let w := run [Start; Worker 0 quiet_env; Stop []] initial_world in
  simulation_running w = false /\
  stop_event w = true /\
  phase_of 0 w = Some Listening /\
  stop_event (snd (start_simulation w)) = false /\
  is_finished 0 (run_workers [(0%nat, quiet_env); (0%nat, quiet_env)]
                   (snd (start_simulation w))) = false.
Proof.
  cbv zeta.
  assert (Hidle : simulation_running (run [Start; Worker 0 quiet_env; Stop []]
                                        initial_world) = false) by reflexivity.
  assert (Hin : in_loop (phase_of 0 (run [Start; Worker 0 quiet_env; Stop []]
                                       initial_world)) = true) by reflexivity.
  pose proof (start_simulation_revives_worker 0 [(0%nat, quiet_env); (0%nat, quiet_env)]
                _ Hidle Hin) as H.
  cbv zeta in H. destruct H as (Hs & _ & _ & _ & Hf).
  split; [exact Hidle|]. split; [reflexivity|]. split; [reflexivity|].
  split; [exact Hs | exact Hf].
Defined.

(** ** What a worker leaves alone *)

(** X6.  A step of a worker never changes the running flag, the recorded
    thread, the event, the active configuration, the configuration objects
    or another thread; the only global it assigns is [start_time].  Its
    effects are socket calls, lines and sleeps of its own: it never sets or
    clears the event and never starts or joins a thread.  So a worker that
    returns, for whatever reason, leaves the running flag set. *)
Theorem worker_leaves_control_state (t : nat) (e : WorkerEnv) (w : World) :
  let w' := simulation_worker t e w in
  simulation_running w' = simulation_running w /\
  simulation_thread w' = simulation_thread w /\
  stop_event w' = stop_event w /\
  active_config w' = active_config w /\
  configs w' = configs w /\
  length (threads w') = length (threads w) /\
  (forall u : nat, u <> t -> threads w' !! u = threads w !! u) /\
  (forall u : nat, t_config <$> threads w' !! u = t_config <$> threads w !! u) /\
  (exists es, trace w' = trace w ++ es /\ Forall (worker_effect t w) es).
Proof.
  cbv zeta. pose proof (simulation_worker_frame t e w) as F.
  split; [exact (frame_running _ _ F)|].
  split; [exact (frame_thread _ _ F)|].
  split; [exact (frame_stop_event _ _ F)|].
  split; [exact (frame_active_config _ _ F)|].
  split; [exact (frame_configs _ _ F)|].
  split.
  { by rewrite <- (length_fmap t_config), (frame_refs _ _ F), length_fmap. }
  split.
  { intros u Hne. worker_cases; rewrite ?list_lookup_alter_ne by done; reflexivity. }
  split.
  { intros u. rewrite <- !list_lookup_fmap. by rewrite (frame_refs _ _ F). }
  apply worker_effects.
Qed.

(** ** One pass of the streaming loop *)




(** What the worker prints for the bytes [" ok ", CR, LF]. *)
Lemma received_text_is_stripped :
  received_lines 0
    (RecvBytes (" ok " ++ string_of_list_ascii (map Ascii.ascii_of_nat [13; 10]%nat)))
  = [PrintLine 0 (Received "ok")].
Proof. reflexivity. Qed.



(** ** Status *)

Lemma py_round_1_near (x : Q) :
  x - (1 # 20) <= py_round x 1 /\ py_round x 1 <= x + (1 # 20).
Proof.
  unfold py_round.
  destruct (round_half_even_near (x * pow10 1)) as [Hlo Hhi].
  change (pow10 1) with 10 in *.
  set (r := inject_Z (round_half_even (x * 10))) in *.
  split.
  - apply Qle_shift_div_l; [reflexivity | lra].
  - apply Qle_shift_div_r; [reflexivity | lra].
Qed.

Lemma uptime_at_mono (now1 now2 : Q) (w : World) :
  now1 <= now2 -> uptime_at now1 w <= uptime_at now2 w.
Proof.
  intros H. unfold uptime_at.
  destruct (start_time w) as [s|]; [|apply Qle_refl].
  destruct (Qeq_bool s 0); [apply Qle_refl | lra].
Qed.

(** X8.  While a simulation runs, [get_status] reports [running: true],
    the sensor type and the sample rate of the active configuration and, as
    uptime, the time since [start_time] rounded to one decimal (0 when
    [start_time] is unset or zero); it changes nothing.  The reported uptime
    is within 0.05 of that time, and of two calls in the same state the one
    with the later clock does not report less. *)
Theorem get_status_running (now now' : Q) (w : World) :
  simulation_running w = true ->
  let c := deref w (active_config w) in
  get_status now w
  = (RespStatus {| running := true;
                   status_sensor_type := Some (sensor_type c);
                   status_sample_rate_hz := Some (sample_rate_hz c);
                   uptime_seconds := Some (py_round (uptime_at now w) 1) |}, w) /\
  (uptime_at now w - (1 # 20) <= py_round (uptime_at now w) 1 /\
   py_round (uptime_at now w) 1 <= uptime_at now w + (1 # 20)) /\
  (start_time w = None -> py_round (uptime_at now w) 1 == 0) /\
  (now <= now' -> py_round (uptime_at now w) 1 <= py_round (uptime_at now' w) 1).
Proof.
  intros Hrun. cbv zeta. split; [|split; [|split]].
  - unfold get_status, uptime_at. rewrite Hrun. reflexivity.
  - apply py_round_1_near.
  - intros Hnone. unfold uptime_at. rewrite Hnone. reflexivity.
  - intros Hle. apply py_round_mono, uptime_at_mono, Hle.
Qed.

(** The theorem ten and a quarter seconds after the worker of a first run
    has begun. *)
Lemma get_status_running_witness :
  let w := run [Start; Worker 0 quiet_env] initial_world in
  simulation_running w = true /\
  1010 + (1 # 4) <= 1011 /\
  fst (get_status (1010 + (1 # 4)) w)
  = RespStatus {| running := true;
                  status_sensor_type := Some TEMPERATURE;
                  status_sample_rate_hz := Some 1;
                  uptime_seconds := Some (py_round (uptime_at (1010 + (1 # 4)) w) 1) |} /\
  py_round (uptime_at (1010 + (1 # 4)) w) 1 == 102 # 10 /\
  py_round (uptime_at (1010 + (1 # 4)) w) 1 <= py_round (uptime_at 1011 w) 1.
Proof.
  cbv zeta.
  assert (Hrun : simulation_running (run [Start; Worker 0 quiet_env] initial_world) = true)
    by reflexivity.
  assert (Hle : 1010 + (1 # 4) <= 1011) by discriminate.
  destruct (get_status_running (1010 + (1 # 4)) 1011 _ Hrun) as (Hst & _ & _ & Hmono).
  split; [exact Hrun|]. split; [exact Hle|]. split; [|split].
  - rewrite Hst. reflexivity.
  - reflexivity.
  - exact (Hmono Hle).
Defined.

Lemma worker_later_step_keeps_start_time (t : nat) (e : WorkerEnv) (w : World) :
  phase_of t w <> Some Started -> start_time (simulation_worker t e w) = start_time w.
Proof.
  unfold phase_of. intros Hp.
  unfold simulation_worker, sample_sleep, client_fault, worker_exit.
  destruct (threads w !! t) as [[c p]|]; simpl in *; [|reflexivity].
  destruct p; try congruence; repeat case_match; reflexivity.
Qed.

(** X9.  [start_time] is assigned by the first step of a worker, whether
    its bind then succeeds or not, and by nothing else: not by
    [start_simulation], not by a later step of a worker.  So the uptime
    reported between a start and the first step of the new worker is counted
    from the start time that the previous worker left (0 in a first run). *)
Theorem start_time_set_by_worker (t : nat) (e : WorkerEnv) (now : Q) (w : World) :
  (phase_of t w = Some Started ->
     start_time (simulation_worker t e w) = Some (env_now e)) /\
  (phase_of t w <> Some Started ->
     start_time (simulation_worker t e w) = start_time w) /\
  (simulation_running w = false ->
     start_time (snd (start_simulation w)) = start_time w /\
     fst (get_status now (snd (start_simulation w)))
     = RespStatus {| running := true;
                     status_sensor_type := Some (sensor_type (deref w (active_config w)));
                     status_sample_rate_hz :=
                       Some (sample_rate_hz (deref w (active_config w)));
                     uptime_seconds := Some (py_round (uptime_at now w) 1) |}).
Proof.
  split; [|split].
  - unfold phase_of. intros Hp.
    unfold simulation_worker, worker_exit.
    destruct (threads w !! t) as [[c p]|]; simpl in *; [|discriminate].
    injection Hp as ->. destruct (env_setup e); reflexivity.
  - apply worker_later_step_keeps_start_time.
  - intros Hidle. rewrite (start_simulation_idle w Hidle). simpl. split; reflexivity.
Qed.

(** The theorem for a second run that is started 500 seconds after the
    first worker began: before the new worker takes its first step, the
    status counts from the first run. *)
Lemma start_time_set_by_worker_witness :
  let w := run [Start; Worker 0 quiet_env; Stop [(0%nat, quiet_env)]] initial_world in
  let late := {| env_now := 1600; env_setup := BindRaises; env_accept := Accepted;
                 env_draws := high_draws; env_send := Sent; env_recv := RecvTimeout |} in
  simulation_running w = false /\
  start_time (snd (start_simulation w)) = Some 1000 /\
  uptime_at 1500 w == 500 /\
  phase_of 1 (snd (start_simulation w)) = Some Started /\
  phase_of 0 (snd (start_simulation w)) <> Some Started /\
  start_time (simulation_worker 1 late (snd (start_simulation w))) = Some 1600 /\
  start_time (simulation_worker 0 late (snd (start_simulation w))) = Some 1000.
Proof.
  cbv zeta.
  set (w := run [Start; Worker 0 quiet_env; Stop [(0%nat, quiet_env)]] initial_world).
  set (late := {| env_now := 1600; env_setup := BindRaises |}).
  assert (Hidle : simulation_running w = false) by reflexivity.
  assert (Hp1 : phase_of 1 (snd (start_simulation w)) = Some Started) by reflexivity.
  assert (Hp0 : phase_of 0 (snd (start_simulation w)) <> Some Started) by discriminate.
  split; [exact Hidle|]. split.
  { rewrite (proj1 (proj2 (proj2 (start_time_set_by_worker 0 late 1500 w)) Hidle)).
    reflexivity. }
  split; [reflexivity|]. split; [exact Hp1|]. split; [exact Hp0|]. split.
  - exact (proj1 (start_time_set_by_worker 1 late 0 (snd (start_simulation w))) Hp1).
  - rewrite (proj1 (proj2 (start_time_set_by_worker 0 late 0 (snd (start_simulation w))))
               Hp0).
    reflexivity.
Defined.

(** ** The active configuration *)

Lemma step_keeps_config (a : Action) (w : World) :
  simulation_running w = true \/ (forall c, a <> UpdateConfig c) ->
  active_config (step a w) = active_config w /\ configs (step a w) = configs w.
Proof.
  intros H. destruct a as [|sched|now| |config|d|t e]; simpl.
  - unfold start_simulation. destruct (simulation_running w); by split.
  - destruct (stop_simulation_frame sched w) as (Hc & Ha & _). by split.
  - unfold get_status. destruct (simulation_running w); by split.
  - by split.
  - unfold update_config. destruct H as [->|H]; [by split|]. by destruct (H config).
  - by split.
  - pose proof (simulation_worker_frame t e w) as F.
    split; [exact (frame_active_config _ _ F) | exact (frame_configs _ _ F)].
Qed.

(** X10.  Only an accepted [update_config] changes the configuration: a
    sequence of requests and worker steps without an update leaves the
    active configuration and every configuration object as they were, so
    that [get_config] and [generate_sample] answer from the same object
    before and after; and while a simulation runs no single request or
    worker step changes them, an update included. *)
Theorem config_changes_only_by_update (acts : list Action) (w : World) :
  Forall (fun a => forall c, a <> UpdateConfig c) acts ->
  active_config (run acts w) = active_config w /\
  configs (run acts w) = configs w /\
  fst (get_config (run acts w)) = fst (get_config w) /\
  (forall d, fst (generate_sample d (run acts w)) = fst (generate_sample d w)) /\
  (forall a, simulation_running w = true ->
     active_config (step a w) = active_config w /\ configs (step a w) = configs w).
Proof.
  intros Hacts.
  assert (H : active_config (run acts w) = active_config w /\
              configs (run acts w) = configs w).
  { revert w. induction Hacts as [|a acts Ha _ IH]; intros w; simpl; [by split|].
    destruct (IH (step a w)) as [H1 H2].
    destruct (step_keeps_config a w (or_intror Ha)) as [H3 H4].
    split; congruence. }
  destruct H as [Ha Hc].
  split; [exact Ha|]. split; [exact Hc|]. split.
  - unfold get_config. simpl. by rewrite Ha.
  - split.
    + intros d. unfold generate_sample, deref. simpl. by rewrite Ha, Hc.
    + intros a Hrun. apply step_keeps_config. by left.
Qed.

(** The theorem for a whole run after an update: start, worker steps, a
    sample, a status request and a stop. *)
Lemma config_changes_only_by_update_witness :
  let acts := [Start; Worker 0 quiet_env; GenerateSample high_draws; Status 1001;
               Start; Worker 0 quiet_env; Stop [(0%nat, quiet_env)]; GetConfig] in
  let w := snd (update_config flat_config initial_world) in
  Forall (fun a => forall c, a <> UpdateConfig c) acts /\
  deref (run acts w) (active_config (run acts w)) = flat_config.
Proof.
  cbv zeta.
  assert (Hacts : Forall (fun a => forall c, a <> UpdateConfig c)
            [Start; Worker 0 quiet_env; GenerateSample high_draws; Status 1001;
             Start; Worker 0 quiet_env; Stop [(0%nat, quiet_env)]; GetConfig])
    by (repeat constructor; discriminate).
  split; [exact Hacts|].
  destruct (config_changes_only_by_update _
              (snd (update_config flat_config initial_world)) Hacts) as (Ha & Hc & _).
  unfold deref. rewrite Ha, Hc. reflexivity.
Defined.

(** ** Sockets over a whole execution *)

Lemma count_effects_app (p : Effect -> bool) (l1 l2 : list Effect) :
  count_effects p (l1 ++ l2) = (count_effects p l1 + count_effects p l2)%nat.
Proof. unfold count_effects. by rewrite List.filter_app, length_app. Qed.

Lemma count_effects_none (p : Effect -> bool) (es : list Effect) :
  Forall (fun eff => p eff = false) es -> count_effects p es = 0%nat.
Proof.
  unfold count_effects. induction 1 as [|eff es He _ IH]; simpl; [reflexivity|].
  by rewrite He.
Qed.

Lemma worker_effect_other (t u : nat) (w : World) (eff : Effect) :
  worker_effect u w eff -> t <> u ->
  announces_client t eff = false /\ closes_client t eff = false /\
  binds_listener t eff = false /\ closes_listener t eff = false.
Proof.
  intros He Hne.
  assert (Hf : forall v, v = u -> Nat.eqb v t = false)
    by (intros v ->; apply Nat.eqb_neq; congruence).
  destruct eff as [| | | | | | | | |v []]; simpl in *;
    repeat split; try reflexivity; try (apply Hf; tauto).
Qed.

Lemma control_effect_other (t : nat) (eff : Effect) :
  control_effect eff ->
  announces_client t eff = false /\ closes_client t eff = false /\
  binds_listener t eff = false /\ closes_listener t eff = false.
Proof. destruct eff as [| | | | | | | | |v []]; simpl; intros H; by repeat split. Qed.

Lemma counts_none (t : nat) (es : list Effect) :
  Forall (fun eff =>
            announces_client t eff = false /\ closes_client t eff = false /\
            binds_listener t eff = false /\ closes_listener t eff = false) es ->
  count_effects (announces_client t) es = 0%nat /\
  count_effects (closes_client t) es = 0%nat /\
  count_effects (binds_listener t) es = 0%nat /\
  count_effects (closes_listener t) es = 0%nat.
Proof.
  intros H. repeat split; apply count_effects_none;
    (eapply Forall_impl; [exact H|]; simpl; tauto).
Qed.

(** Effects that are no socket calls and leave the threads alone. *)
Lemma balanced_same (w w' : World) (es : list Effect) :
  threads w' = threads w -> trace w' = trace w ++ es -> Forall control_effect es ->
  sockets_balanced w -> sockets_balanced w'.
Proof.
  intros Hth Htr Hes H t.
  destruct (counts_none t es) as (E1 & E2 & E3 & E4).
  { eapply Forall_impl; [exact Hes|]. intros eff. apply control_effect_other. }
  unfold phase_of. rewrite Hth, Htr, !count_effects_app, E1, E2, E3, E4.
  rewrite !Nat.add_0_r. apply H.
Qed.

(** Case analysis on what the environment answers, leaving the tests on the
    phase for later. *)
Ltac env_cases :=
  repeat match goal with
         | |- context [match ?x with _ => _ end] =>
             lazymatch x with
             | is_streaming _ => fail
             | in_loop _ => fail
             | _ => destruct x eqn:?
             end
         end.

Lemma balanced_worker (u : nat) (e : WorkerEnv) (w : World) :
  sockets_balanced w -> sockets_balanced (simulation_worker u e w).
Proof.
  intros H t. destruct (decide (t = u)) as [->|Hne].
  - destruct (H u) as [H1 H2]. unfold phase_of in *.
    destruct (threads w !! u) as [[c p]|] eqn:Hlk; simpl in *.
    + unfold simulation_worker, sample_sleep, client_fault, worker_exit.
      rewrite Hlk. simpl.
      destruct p; simpl in *; env_cases; simpl;
        rewrite ?list_lookup_alter_eq, ?Hlk; simpl;
        rewrite ?count_effects_app;
        repeat match goal with
               | |- context [count_effects ?p (?x :: ?l)] =>
                   change (count_effects p (x :: l))
                     with (length (List.filter p (x :: l)))
               | |- context [count_effects ?p []] =>
                   change (count_effects p []) with 0%nat
               end;
        simpl; rewrite ?Nat.eqb_refl; simpl; lia.
    + unfold simulation_worker. rewrite Hlk. simpl. rewrite Hlk. by split.
  - destruct (worker_effects u e w) as (es & Htr & Hes).
    destruct (counts_none t es) as (E1 & E2 & E3 & E4).
    { eapply Forall_impl; [exact Hes|]. intros eff He.
      exact (worker_effect_other t u w eff He Hne). }
    rewrite (worker_other_phase u t e w) by congruence.
    rewrite Htr, !count_effects_app, E1, E2, E3, E4, !Nat.add_0_r. apply H.
Qed.

Lemma balanced_join_wait (t : nat) (sched : list (nat * WorkerEnv)) (w : World) :
  sockets_balanced w -> sockets_balanced (join_wait t sched w).
Proof.
  revert w. induction sched as [|[u e] sched IH]; intros w H; simpl; [exact H|].
  destruct (is_finished t w); [exact H|]. apply IH, balanced_worker, H.
Qed.

Lemma phase_of_start (t : nat) (w : World) :
  simulation_running w = false ->
  phase_of t (snd (start_simulation w))
  = if decide (t = length (threads w)) then Some Started else phase_of t w.
Proof.
  intros Hidle. rewrite (start_simulation_idle w Hidle). unfold phase_of. simpl.
  destruct (decide (t = length (threads w))) as [->|Hne].
  - by rewrite list_lookup_middle.
  - destruct (decide (t < length (threads w))%nat) as [Hlt|Hge].
    + by rewrite lookup_app_l.
    + rewrite !lookup_ge_None_2; [reflexivity | lia |].
      rewrite length_app. simpl. lia.
Qed.

Lemma balanced_step (a : Action) (w : World) :
  sockets_balanced w -> sockets_balanced (step a w).
Proof.
  intros H. destruct a as [|sched|now| |config|d|t e]; simpl.
  - destruct (simulation_running w) eqn:Hrun.
    + unfold start_simulation. by rewrite Hrun.
    + intros t. rewrite (phase_of_start t w Hrun).
      assert (Hp : is_streaming (if decide (t = length (threads w))
                                 then Some Started else phase_of t w)
                   = is_streaming (phase_of t w) /\
                   in_loop (if decide (t = length (threads w))
                            then Some Started else phase_of t w)
                   = in_loop (phase_of t w)).
      { destruct (decide (t = length (threads w))) as [->|]; [|by split].
        unfold phase_of. by rewrite lookup_ge_None_2. }
      destruct Hp as [-> ->].
      rewrite (start_simulation_idle w Hrun). simpl.
      rewrite !count_effects_app. unfold count_effects at 2 4 6 8. simpl.
      rewrite !Nat.add_0_r. apply H.
  - destruct (simulation_running w) eqn:Hrun.
    + rewrite (stop_simulation_running sched w Hrun). simpl.
      assert (H1 : sockets_balanced (emit [EventSet] (set_stop_event true w))).
      { apply (balanced_same w _ [EventSet]); [reflexivity | reflexivity | | exact H].
        by repeat constructor. }
      match goal with
      | |- sockets_balanced (set_simulation_running false ?x) =>
          apply (balanced_same x _ []); [reflexivity | by rewrite app_nil_r | constructor |]
      end.
      destruct (simulation_thread w) as [t|]; [|exact H1].
      unfold Thread_join. apply balanced_join_wait.
      apply (balanced_same (emit [EventSet] (set_stop_event true w)) _ [ThreadJoin t 5]);
        [reflexivity | reflexivity | | exact H1].
      by repeat constructor.
    + unfold stop_simulation. by rewrite Hrun.
  - unfold get_status. by destruct (simulation_running w).
  - exact H.
  - unfold update_config. destruct (simulation_running w); [exact H|].
    apply (balanced_same w _ []); [reflexivity | by rewrite app_nil_r | constructor | exact H].
  - exact H.
  - by apply balanced_worker.
Qed.

(** X12.  In every state the program can reach and for every worker: the
    clients it has announced are all closed, except the one it is streaming
    to, and the listeners it has bound are all closed, except the one of a
    worker that is in its loops.  A worker that has returned has closed
    every socket it opened, on each of its ways out. *)
Theorem sockets_closed_on_every_path (w : World) :
  reachable w ->
  sockets_balanced w /\
  (forall t : nat,
     is_finished t w = true ->
     count_effects (announces_client t) (trace w)
     = count_effects (closes_client t) (trace w) /\
     count_effects (binds_listener t) (trace w)
     = count_effects (closes_listener t) (trace w)).
Proof.
  intros Hreach.
  assert (H : sockets_balanced w).
  { revert w Hreach. apply reachable_ind; [|exact balanced_step].
    intros t. by split. }
  split; [exact H|].
  intros t Hfin. apply is_finished_phase in Hfin.
  destruct (H t) as [H1 H2]. rewrite Hfin in H1, H2. simpl in *. lia.
Qed.

(** The theorem for a run with one client, stopped while it streams. *)
Lemma sockets_closed_on_every_path_witness :
  let w := run [Start; Worker 0 quiet_env; Worker 0 quiet_env; Worker 0 quiet_env;
                Stop [(0%nat, quiet_env); (0%nat, quiet_env)]] initial_world in
  reachable w /\
  is_finished 0 w = true /\
  count_effects (announces_client 0) (trace w) = 1%nat /\
  count_effects (closes_client 0) (trace w) = 1%nat /\
  count_effects (binds_listener 0) (trace w)
  = count_effects (closes_listener 0) (trace w).
Proof.
  cbv zeta.
  set (w := run [Start; Worker 0 quiet_env; Worker 0 quiet_env; Worker 0 quiet_env;
                 Stop [(0%nat, quiet_env); (0%nat, quiet_env)]] initial_world).
  assert (Hreach : reachable w) by (eexists; reflexivity).
  assert (Hfin : is_finished 0 w = true) by reflexivity.
  split; [exact Hreach|]. split; [exact Hfin|].
  split; [reflexivity|]. split; [reflexivity|].
  exact (proj2 (proj2 (sockets_closed_on_every_path w Hreach) 0%nat Hfin)).
Defined.

(** ** Where the readings come from *)

Lemma well_formed_thread_ref (w : World) (t : nat) (th : Thread) :
  well_formed w -> threads w !! t = Some th -> (t_config th < length (configs w))%nat.
Proof.
  intros [_ Hf] Hlk.
  eapply (Forall_lookup_1 _ _ t (t_config th)) in Hf; [exact Hf|].
  by rewrite list_lookup_fmap, Hlk.
Qed.

(** Readings stay accounted for when threads and objects are only added. *)
Lemma readings_grow (w w' : World) :
  well_formed w -> grows w w' ->
  (forall t data, In (SendAll t data) (trace w') -> In (SendAll t data) (trace w)) ->
  readings_from_config w -> readings_from_config w'.
Proof.
  intros Hwf G Htr H t data Hin.
  destruct (H t data (Htr t data Hin)) as (th & d & Hlk & ->).
  destruct (grows_thread w w' t th G Hlk) as (th' & Hlk' & Hc).
  exists th', d. split; [exact Hlk'|].
  rewrite Hc, (grows_deref w w' (t_config th) G); [reflexivity|].
  by eapply well_formed_thread_ref.
Qed.

Lemma grows_same (w w' : World) :
  configs w' = configs w -> threads w' = threads w -> grows w w'.
Proof. intros Hc Ht. split; exists []; by rewrite ?Hc, ?Ht, app_nil_r. Qed.

Lemma in_control_effects (t : nat) (data : Reading) (l es : list Effect) :
  Forall control_effect es -> In (SendAll t data) (l ++ es) -> In (SendAll t data) l.
Proof.
  intros Hes Hin. apply in_app_or in Hin. destruct Hin as [Hin|Hin]; [exact Hin|].
  rewrite Forall_forall in Hes. apply list_elem_of_In in Hin.
  destruct (Hes _ Hin).
Qed.

Lemma readings_worker (u : nat) (e : WorkerEnv) (w : World) :
  well_formed w -> readings_from_config w ->
  readings_from_config (simulation_worker u e w).
Proof.
  intros Hwf H t data Hin.
  pose proof (simulation_worker_frame u e w) as F.
  pose proof (worker_frame_grows _ _ F) as G.
  destruct (worker_effects u e w) as (es & Htr & Hes).
  rewrite Htr in Hin. apply in_app_or in Hin.
  assert (Hold : exists th d, threads w !! t = Some th /\
                              data = reading_of (deref w (t_config th)) d).
  { destruct Hin as [Hin|Hin]; [by apply H|].
    rewrite Forall_forall in Hes. apply list_elem_of_In in Hin.
    destruct (Hes _ Hin) as [-> Hex]. exact Hex. }
  destruct Hold as (th & d & Hlk & ->).
  destruct (grows_thread _ _ t th G Hlk) as (th' & Hlk' & Hc).
  exists th', d. split; [exact Hlk'|].
  rewrite Hc. unfold deref. by rewrite (frame_configs _ _ F).
Qed.

Lemma well_formed_worker (u : nat) (e : WorkerEnv) (w : World) :
  well_formed w -> well_formed (simulation_worker u e w).
Proof. exact (well_formed_step (Worker u e) w). Qed.

Lemma readings_join_wait (t : nat) (sched : list (nat * WorkerEnv)) (w : World) :
  well_formed w -> readings_from_config w ->
  readings_from_config (join_wait t sched w).
Proof.
  revert w. induction sched as [|[u e] sched IH]; intros w Hwf H; simpl; [exact H|].
  destruct (is_finished t w); [exact H|].
  apply IH; [by apply well_formed_worker | by apply readings_worker].
Qed.

Lemma readings_step (a : Action) (w : World) :
  well_formed w -> readings_from_config w -> readings_from_config (step a w).
Proof.
  intros Hwf H. destruct a as [|sched|now| |config|d|t e].
  - apply (readings_grow w); [exact Hwf | apply (step_grows Start) | | exact H].
    intros t data. simpl. unfold start_simulation.
    destruct (simulation_running w); simpl; [done|].
    apply in_control_effects. by repeat constructor.
  - simpl. destruct (simulation_running w) eqn:Hrun.
    + rewrite (stop_simulation_running sched w Hrun). simpl.
      assert (H1 : readings_from_config (emit [EventSet] (set_stop_event true w))).
      { apply (readings_grow w); [exact Hwf | by apply grows_same | | exact H].
        intros t data. simpl. apply in_control_effects. by repeat constructor. }
      assert (Hwf1 : well_formed (emit [EventSet] (set_stop_event true w))) by exact Hwf.
      intros t data Hin. simpl in Hin.
      destruct (simulation_thread w) as [t0|]; [|by apply H1].
      unfold Thread_join in *.
      assert (H2 : readings_from_config
                     (emit [ThreadJoin t0 5] (emit [EventSet] (set_stop_event true w)))).
      { apply (readings_grow (emit [EventSet] (set_stop_event true w)));
          [exact Hwf1 | by apply grows_same | | exact H1].
        intros t' data'. simpl. apply in_control_effects. by repeat constructor. }
      exact (readings_join_wait t0 sched
               (emit [ThreadJoin t0 5] (emit [EventSet] (set_stop_event true w)))
               Hwf H2 t data Hin).
    + unfold stop_simulation. by rewrite Hrun.
  - simpl. unfold get_status. by destruct (simulation_running w).
  - exact H.
  - apply (readings_grow w); [exact Hwf | apply (step_grows (UpdateConfig config)) | | exact H].
    intros t data. simpl. unfold update_config. by destruct (simulation_running w).
  - exact H.
  - by apply readings_worker.
Qed.

Lemma reachable_readings (w : World) :
  reachable w -> well_formed w /\ readings_from_config w.
Proof.
  revert w. apply reachable_ind.
  - split; [exact well_formed_initial|]. intros t data [].
  - intros a w [Hwf H]. split; [by apply well_formed_step | by apply readings_step].
Qed.

Lemma reachable_run (acts : list Action) (w : World) :
  reachable w -> reachable (run acts w).
Proof.
  intros [acts0 ->]. exists (acts0 ++ acts). unfold run. by rewrite fold_left_app.
Qed.

(** X13.  Every reading that a worker has sent carries the sensor kind of
    the configuration object that the worker was started with, as that
    object reads now, and the unit that the table gives for this kind,
    never the empty default. *)
Theorem sent_readings_kind_and_unit (w : World) (t : nat) (data : Reading) :
  reachable w ->
  In (SendAll t data) (trace w) ->
  exists th : Thread,
    threads w !! t = Some th /\
    r_type data = SensorType_value (sensor_type (deref w (t_config th))) /\
    r_unit data = get_unit_for_sensor (r_type data) /\
    r_unit data <> "".
Proof.
  intros Hreach Hin.
  destruct (reachable_readings w Hreach) as [_ H].
  destruct (H t data Hin) as (th & d & Hlk & ->).
  exists th. split; [exact Hlk|]. split; [reflexivity|]. split; [reflexivity|].
  unfold reading_of. simpl.
  rewrite get_unit_for_sensor_member. by destruct (sensor_type _).
Qed.

(** The theorem for the first reading of a run with the default
    configuration. *)
Lemma sent_readings_kind_and_unit_witness :
  let w := run [Start; Worker 0 quiet_env; Worker 0 quiet_env; Worker 0 quiet_env]
             initial_world in
  reachable w /\
  In (SendAll 0 (reading_of default_config high_draws)) (trace w) /\
  r_unit (reading_of default_config high_draws) = "C".
Proof.
  cbv zeta.
  set (w := run [Start; Worker 0 quiet_env; Worker 0 quiet_env; Worker 0 quiet_env]
              initial_world).
  assert (Hreach : reachable w) by (eexists; reflexivity).
  assert (Hin : In (SendAll 0 (reading_of default_config high_draws)) (trace w)).
  { vm_compute. auto 10. }
  split; [exact Hreach|]. split; [exact Hin|].
  destruct (sent_readings_kind_and_unit w 0 _ Hreach Hin) as (th & _ & _ & Hu & _).
  rewrite Hu. reflexivity.
Defined.

(** *** Which draws a reading was made from *)

(** A reading of thread [t] in the trace after a worker step was there
    before, or the step is one of [t] and made it from the draws it got. *)
Lemma worker_sends (u t : nat) (e : WorkerEnv) (w : World) (data : Reading) :
  In (SendAll t data) (trace (simulation_worker u e w)) ->
  In (SendAll t data) (trace w) \/
  (u = t /\
   exists th, threads w !! t = Some th /\
              data = reading_of (deref w (t_config th)) (env_draws e)).
Proof.
  unfold reading_of. worker_cases; intros Hin;
    rewrite ?List.in_app_iff in Hin; simpl in Hin;
    repeat match goal with
           | H : _ \/ _ |- _ => destruct H as [H|H]
           | H : False |- _ => destruct H
           end;
    try discriminate; try (by left);
    match goal with
    | H : SendAll _ _ = SendAll _ _ |- _ => injection H as <- <-
    end;
    solve [right; split; [reflexivity|]; eexists; split; [eassumption | reflexivity]].
Qed.

Lemma worker_draws_cons (t u : nat) (e : WorkerEnv) (sched : list (nat * WorkerEnv)) :
  worker_draws t ((u, e) :: sched)
  = (if Nat.eqb u t then [env_draws e] else []) ++ worker_draws t sched.
Proof. reflexivity. Qed.

Lemma frame_same_object (w w' : World) (t : nat) (th : Thread) :
  worker_frame w w' -> threads w' !! t = Some th ->
  exists th0, threads w !! t = Some th0 /\
              deref w (t_config th0) = deref w' (t_config th).
Proof.
  intros F Hlk.
  assert (H : t_config <$> threads w !! t = Some (t_config th)).
  { rewrite <- list_lookup_fmap, <- (frame_refs _ _ F), list_lookup_fmap. by rewrite Hlk. }
  destruct (threads w !! t) as [th0|]; [|discriminate].
  exists th0. split; [reflexivity|].
  injection H as ->. unfold deref. by rewrite (frame_configs _ _ F).
Qed.

Lemma join_sends (t0 t : nat) (sched : list (nat * WorkerEnv)) (w : World)
    (data : Reading) :
  In (SendAll t data) (trace (join_wait t0 sched w)) ->
  In (SendAll t data) (trace w) \/
  exists th d, threads w !! t = Some th /\ In d (worker_draws t sched) /\
               data = reading_of (deref w (t_config th)) d.
Proof.
  revert w. induction sched as [|[u e] sched IH]; intros w Hin; simpl in Hin;
    [by left|].
  destruct (is_finished t0 w); [by left|].
  rewrite worker_draws_cons.
  destruct (IH _ Hin) as [Hin'|(th & d & Hlk & Hd & ->)].
  - destruct (worker_sends u t e w data Hin') as [Hold|[-> (th & Hlk & ->)]];
      [by left|].
    right. exists th, (env_draws e). split; [exact Hlk|]. split; [|reflexivity].
    rewrite Nat.eqb_refl. by left.
  - destruct (frame_same_object _ _ t th (simulation_worker_frame u e w) Hlk)
      as (th0 & Hlk0 & Heq).
    right. exists th0, d. split; [exact Hlk0|]. split; [|by rewrite Heq].
    apply List.in_or_app. by right.
Qed.

Lemma step_sends (a : Action) (t : nat) (w : World) (data : Reading) :
  In (SendAll t data) (trace (step a w)) ->
  In (SendAll t data) (trace w) \/
  exists th d, threads w !! t = Some th /\ In d (action_draws t a) /\
               data = reading_of (deref w (t_config th)) d.
Proof.
  destruct a as [|sched|now| |config|d|u e]; simpl.
  - unfold start_simulation. destruct (simulation_running w); simpl; [by left|].
    intros Hin. left. revert Hin. apply in_control_effects. by repeat constructor.
  - destruct (simulation_running w) eqn:Hrun.
    + rewrite (stop_simulation_running sched w Hrun). simpl.
      destruct (simulation_thread w) as [t0|]; simpl.
      * unfold Thread_join. intros Hin.
        destruct (join_sends _ _ _ _ _ Hin) as [Hold|H]; [|by right].
        left. simpl in Hold. rewrite <- app_assoc in Hold.
        revert Hold. apply in_control_effects. by repeat constructor.
      * intros Hin. left. revert Hin. apply in_control_effects. by repeat constructor.
    + unfold stop_simulation. rewrite Hrun. by left.
  - unfold get_status. destruct (simulation_running w); by left.
  - by left.
  - unfold update_config. destruct (simulation_running w); by left.
  - by left.
  - intros Hin.
    destruct (worker_sends u t e w data Hin) as [Hold|[-> (th & Hlk & ->)]]; [by left|].
    right. exists th, (env_draws e). split; [exact Hlk|]. split; [|reflexivity].
    unfold worker_draws. simpl. rewrite Nat.eqb_refl. by left.
Qed.

Lemma run_sends (acts : list Action) (t : nat) (w : World) (data : Reading) :
  well_formed w ->
  In (SendAll t data) (trace (run acts w)) ->
  In (SendAll t data) (trace w) \/
  exists th d, threads (run acts w) !! t = Some th /\ In d (supplied_draws t acts) /\
               data = reading_of (deref (run acts w) (t_config th)) d.
Proof.
  revert w. induction acts as [|a acts IH]; intros w Hwf Hin; [by left|].
  change (run (a :: acts) w) with (run acts (step a w)) in *.
  change (supplied_draws t (a :: acts))
    with (action_draws t a ++ supplied_draws t acts).
  destruct (IH (step a w) (well_formed_step a w Hwf) Hin)
    as [Hin'|(th & d & Hlk & Hd & ->)].
  - destruct (step_sends a t w data Hin') as [Hold|(th & d & Hlk & Hd & ->)];
      [by left|].
    assert (G : grows w (run acts (step a w)))
      by (eapply grows_trans; [apply step_grows | apply run_grows]).
    destruct (grows_thread _ _ t th G Hlk) as (th' & Hlk' & Hc).
    right. exists th', d. split; [exact Hlk'|]. split.
    + apply List.in_or_app. by left.
    + rewrite Hc, (grows_deref _ _ _ G); [reflexivity|].
      by eapply well_formed_thread_ref.
  - right. exists th, d. split; [exact Hlk|]. split; [|reflexivity].
    apply List.in_or_app. by right.
Qed.

(** X14.  From update to client: when a configuration is submitted while
    no simulation runs and a simulation is then started, every reading that
    the worker of this run ever sends is the result of
    [generate_sensor_data] on the fields of the submitted configuration and
    on draws that one of this worker's own steps was given, whatever
    requests and worker steps follow, later stops, updates and starts
    included.  (The statement does not depend on how [generate_sensor_data]
    computes the value.) *)
Theorem updated_config_reaches_client
    (config : SimulationConfig) (acts : list Action) (w : World) (data : Reading) :
  reachable w ->
  simulation_running w = false ->
  In (SendAll (length (threads w)) data)
     (trace (run (UpdateConfig config :: Start :: acts) w)) ->
  exists d : Draws,
    In d (supplied_draws (length (threads w)) acts) /\
    data = generate_sensor_data (SensorType_value (sensor_type config))
             (min_value config) (max_value config) (noise_factor config) d.
Proof.
  intros Hreach Hidle Hin.
  change (run (UpdateConfig config :: Start :: acts) w)
    with (run acts (snd (start_simulation (snd (update_config config w))))) in Hin.
  destruct (reachable_readings w Hreach) as [Hwf Hread].
  set (w2 := snd (update_config config w)) in *.
  assert (Hw2 : simulation_running w2 = false /\ threads w2 = threads w /\
                configs w2 = configs w ++ [config] /\
                active_config w2 = length (configs w) /\ trace w2 = trace w).
  { unfold w2, update_config. rewrite Hidle. by repeat split. }
  destruct Hw2 as (Hidle2 & Hth2 & Hc2 & Ha2 & Htr2).
  set (w3 := snd (start_simulation w2)) in *.
  assert (Hw3 : threads w3 !! length (threads w)
                = Some {| t_config := length (configs w); t_phase := Started |} /\
                configs w3 = configs w ++ [config] /\
                trace w3 = trace w ++ [EventClear; ThreadStart (length (threads w))
                                                    (length (configs w))]).
  { unfold w3. rewrite (start_simulation_idle w2 Hidle2). simpl.
    rewrite Hth2, Ha2, Hc2, Htr2. split; [|by split]. by apply list_lookup_middle. }
  destruct Hw3 as (Hlk3 & Hc3 & Htr3).
  assert (Hwf3 : well_formed w3).
  { apply (well_formed_step Start w2), (well_formed_step (UpdateConfig config) w), Hwf. }
  destruct (run_sends acts _ w3 data Hwf3 Hin) as [Hold|(th & d & Hlk & Hd & ->)].
  - exfalso. rewrite Htr3 in Hold.
    apply in_control_effects in Hold; [|by repeat constructor].
    destruct (Hread _ _ Hold) as (th & _ & Hlk & _).
    apply lookup_lt_Some in Hlk. lia.
  - exists d. split; [exact Hd|]. unfold reading_of.
    pose proof (run_grows acts w3) as G.
    destruct (grows_thread _ _ _ _ G Hlk3) as (th' & Hlk' & Hc).
    rewrite Hlk in Hlk'. injection Hlk' as <-. simpl in Hc. rewrite Hc.
    assert (Hobj : deref (run acts w3) (length (configs w)) = config).
    { rewrite (grows_deref w3 _ _ G).
      - unfold deref. rewrite Hc3. by apply list_lookup_total_middle.
      - rewrite Hc3, length_app. simpl. lia. }
    by rewrite Hobj.
Qed.

(** The theorem for a run on the flat configuration that goes on after a
    stop whose join gave up, a further update and a further start: its
    second reading is made from the flat configuration and the draws of the
    last step. *)
Lemma updated_config_reaches_client_witness :
  let late := {| env_now := 2000; env_setup := SetupOk; env_accept := Accepted;
                 env_draws := {| draw_base := 1 # 4; draw_noise := 3 # 4;
                                 draw_time := 2000 |};
                 env_send := Sent; env_recv := RecvTimeout |} in
  let acts := [Worker 0 quiet_env; Worker 0 quiet_env; Worker 0 quiet_env; Stop [];
               UpdateConfig broken_config; Start; Worker 0 late] in
  let w := run (UpdateConfig flat_config :: Start :: acts) initial_world in
  reachable initial_world /\
  simulation_running initial_world = false /\
  supplied_draws 0 acts = [high_draws; high_draws; high_draws; env_draws late] /\
  In (SendAll 0 (reading_of flat_config (env_draws late))) (trace w) /\
  exists d, In d (supplied_draws 0 acts) /\
            reading_of flat_config (env_draws late) = reading_of flat_config d.
Proof.
  cbv zeta.
  set (late := {| env_now := 2000 |}).
  set (acts := [Worker 0 quiet_env; Worker 0 quiet_env; Worker 0 quiet_env; Stop [];
                UpdateConfig broken_config; Start; Worker 0 late]).
  assert (Hreach : reachable initial_world) by (exists []; reflexivity).
  assert (Hidle : simulation_running initial_world = false) by reflexivity.
  assert (Hin : In (SendAll (length (threads initial_world))
                      (reading_of flat_config (env_draws late)))
                  (trace (run (UpdateConfig flat_config :: Start :: acts) initial_world))).
  { vm_compute. auto 20. }
  split; [exact Hreach|]. split; [exact Hidle|]. split; [reflexivity|].
  split; [exact Hin|].
  exact (updated_config_reaches_client flat_config acts initial_world _ Hreach Hidle Hin).
Defined.

(** ** After a worker that could not set up its socket *)

Lemma join_wait_finished (t : nat) (sched : list (nat * WorkerEnv)) (w : World) :
  is_finished t w = true -> join_wait t sched w = w.
Proof. intros H. destruct sched as [|[u e] sched]; simpl; [reflexivity|]. by rewrite H. Qed.

(** X15.  When the worker of a new run cannot create or bind its socket it
    returns at once, and the handlers go on as if the simulation ran:
    another start answers "already running" and an update is refused.
    [stop_simulation] then finds the thread finished: it sets the event,
    returns from the join without waiting for any step of a worker, and
    clears the running flag, after which a start creates a new worker. *)
Theorem failed_setup_needs_stop
    (e : WorkerEnv) (config : SimulationConfig) (sched : list (nat * WorkerEnv))
    (w : World) :
  simulation_running w = false ->
  env_setup e <> SetupOk ->
  let t := length (threads w) in
  let w1 := simulation_worker t e (snd (start_simulation w)) in
  let w2 := snd (stop_simulation sched w1) in
  is_finished t w1 = true /\
  simulation_running w1 = true /\
  fst (start_simulation w1) = RespMessage "Simulation already running" /\
  fst (update_config config w1)
  = HTTPException 400
      "Cannot update configuration while simulation is running. Stop the simulation first." /\
  fst (stop_simulation sched w1) = RespMessage "Simulation stopped" /\
  trace w2 = trace w1 ++ [EventSet; ThreadJoin t 5] /\
  threads w2 = threads w1 /\
  simulation_running w2 = false /\
  phase_of (S t) (snd (start_simulation w2)) = Some Started.
Proof.
  intros Hidle He. cbv zeta.
  set (t := length (threads w)).
  set (w1 := simulation_worker t e (snd (start_simulation w))).
  assert (Hfin : is_finished t w1 = true).
  { unfold w1. rewrite (start_simulation_idle w Hidle). simpl.
    unfold simulation_worker, worker_exit, is_finished. simpl.
    rewrite list_lookup_middle by reflexivity. simpl.
    destruct (env_setup e); try done; simpl;
      by rewrite list_lookup_alter_eq, list_lookup_middle. }
  pose proof (simulation_worker_frame t e (snd (start_simulation w))) as F.
  fold w1 in F.
  assert (Hrun : simulation_running w1 = true).
  { rewrite (frame_running _ _ F), (start_simulation_idle w Hidle). reflexivity. }
  assert (Hthr : simulation_thread w1 = Some t).
  { rewrite (frame_thread _ _ F), (start_simulation_idle w Hidle). reflexivity. }
  assert (Hlen : length (threads w1) = S t).
  { rewrite <- (length_fmap t_config), (frame_refs _ _ F), length_fmap.
    rewrite (start_simulation_idle w Hidle). simpl. rewrite length_app. simpl.
    unfold t. lia. }
  split; [exact Hfin|]. split; [exact Hrun|].
  split; [unfold start_simulation; by rewrite Hrun|].
  split; [unfold update_config; by rewrite Hrun|].
  assert (Hw2 : stop_simulation sched w1
                = (RespMessage "Simulation stopped",
                   set_simulation_running false
                     (emit [ThreadJoin t 5] (emit [EventSet] (set_stop_event true w1))))).
  { rewrite (stop_simulation_running sched w1 Hrun), Hthr.
    unfold Thread_join. by rewrite join_wait_finished. }
  rewrite Hw2.
  split; [reflexivity|]. split; [simpl; by rewrite <- app_assoc|].
  split; [reflexivity|]. split; [reflexivity|].
  rewrite phase_of_start by reflexivity.
  change (threads (snd (RespMessage "Simulation stopped",
            set_simulation_running false
              (emit [ThreadJoin t 5] (emit [EventSet] (set_stop_event true w1))))))
    with (threads w1).
  rewrite Hlen. by destruct (decide (S t = S t)).
Qed.

(** The theorem for the initial state and a bind that raises. *)
Lemma failed_setup_needs_stop_witness :
  let w1 := simulation_worker 0 bind_fails_env (snd (start_simulation initial_world)) in
  simulation_running initial_world = false /\
  env_setup bind_fails_env <> SetupOk /\
  simulation_running w1 = true /\
  simulation_running (snd (stop_simulation [(0%nat, quiet_env)] w1)) = false /\
  threads (snd (stop_simulation [(0%nat, quiet_env)] w1)) = threads w1.
Proof.
  cbv zeta.
  assert (Hidle : simulation_running initial_world = false) by reflexivity.
  assert (He : env_setup bind_fails_env <> SetupOk) by discriminate.
  pose proof (failed_setup_needs_stop bind_fails_env default_config
                [(0%nat, quiet_env)] initial_world Hidle He) as H.
  cbv zeta in H. destruct H as (_ & Hrun & _ & _ & _ & _ & Hth & Hoff & _).
  split; [exact Hidle|]. split; [exact He|]. split; [exact Hrun|].
  split; [exact Hoff | exact Hth].
Defined.
